(** * TabaDigit ESL API: the request handlers of [main.py] and the schemas of
    [schemas.py], as pure functions over an explicit document store.

    Layout of the development:
    - [Py]: the Python values the handlers pass around, truth values,
      [str], slicing, exceptions;
    - [Bson]: [ObjectId] tokens;
    - [Regex]: the fragment of regular expressions used to read [$regex];
    - [Schemas]: the pydantic models of [schemas.py];
    - [Store]: the document store behind [database.py];
    - [Main]: the handlers of [main.py];
    - the properties of the handlers. *)

From Stdlib Require Import ZArith NArith String Ascii List Bool Lia PrimFloat.
From stdpp Require Import base option list strings gmap pretty.

Open Scope string_scope.
Open Scope list_scope.
Open Scope Z_scope.

(** ** Python values *)

Module Py.

(** The values a document or a JSON body holds. [VDatetime] carries the
    instant as microseconds since the epoch. *)
#[warnings="-register-all"]
Inductive value : Type :=
| VNone
| VBool (b : bool)
| VInt (z : Z)
| VFloat (f : float)
| VStr (s : string)
| VDatetime (t : Z)
| VList (l : list value)
| VDict (d : list (string * value)).

(** A [dict] with string keys. *)
Abbreviation dict := (gmap string value).

(** [bool(v)]: Python's truth value. *)
Definition truthy (v : value) : bool :=
  match v with
  | VNone => false
  | VBool b => b
  | VInt z => negb (z =? 0)
  | VFloat f => negb (PrimFloat.eqb f 0%float)
  | VStr s => negb (String.eqb s "")
  | VDatetime _ => true
  | VList l => match l with [] => false | _ => true end
  | VDict d => match d with [] => false | _ => true end
  end.

(** [bool(s)] of a [str]. *)
Definition str_truthy (s : string) : bool := negb (String.eqb s "").

(** [v is None] on a value. *)
Definition is_None (v : value) : bool :=
  match v with VNone => true | _ => false end.

(** [v is not None] on an optional attribute. *)
Definition is_not_None {A} (o : option A) : bool :=
  match o with Some _ => true | None => false end.

(** A [str] is kept as the UTF-8 bytes of its text. A character is one byte
    that is not a continuation byte ([10xxxxxx]) with the continuation bytes
    after it. *)
Definition is_continuation (c : ascii) : bool :=
  let n := N_of_ascii c in ((128 <=? n) && (n <? 192))%N.

(** [len(s)]: the number of characters. *)
Fixpoint str_len (s : string) : nat :=
  match s with
  | EmptyString => O
  | String c s' => ((if is_continuation c then 0 else 1) + str_len s')%nat
  end.

(** [s[:n]]: the first [n] characters. *)
Fixpoint str_take (n : nat) (s : string) : string :=
  match s with
  | EmptyString => EmptyString
  | String c s' =>
      if is_continuation c then String c (str_take n s')
      else
        match n with
        | O => EmptyString
        | S n' => String c (str_take n' s')
        end
  end.

(** Lower-casing of the ASCII letters of a string; the bytes of other
    characters stay. *)
Definition lower_ascii (c : ascii) : ascii :=
  let n := N_of_ascii c in
  if ((65 <=? n) && (n <=? 90))%N then ascii_of_N (n + 32) else c.

Fixpoint lower (s : string) : string :=
  match s with
  | EmptyString => EmptyString
  | String c s' => String (lower_ascii c) (lower s')
  end.

(** Sameness of two values, as the store compares an old and a new field. *)
Fixpoint value_eqb (a b : value) {struct a} : bool :=
  match a, b with
  | VNone, VNone => true
  | VBool x, VBool y => Bool.eqb x y
  | VInt x, VInt y => (x =? y)
  | VFloat x, VFloat y => PrimFloat.eqb x y
  | VStr x, VStr y => String.eqb x y
  | VDatetime x, VDatetime y => (x =? y)
  | VList l1, VList l2 =>
      (fix go (l1 l2 : list value) {struct l1} : bool :=
         match l1, l2 with
         | [], [] => true
         | x :: l1', y :: l2' => value_eqb x y && go l1' l2'
         | _, _ => false
         end) l1 l2
  | VDict d1, VDict d2 =>
      (fix go (d1 d2 : list (string * value)) {struct d1} : bool :=
         match d1, d2 with
         | [], [] => true
         | (k1, x) :: d1', (k2, y) :: d2' =>
             String.eqb k1 k2 && value_eqb x y && go d1' d2'
         | _, _ => false
         end) d1 d2
  | _, _ => false
  end.

(** Exceptions. [HTTPException] is FastAPI's; every other exception is kept
    as its class name and its message. *)
Inductive exn : Type :=
| HTTPException (status_code : Z) (detail : string)
| RequestValidationError (detail : string)
| PyError (cls : string) (msg : string).

(** [str(e)]. *)
Definition exn_str (e : exn) : string :=
  match e with
  | HTTPException c d => pretty c +:+ ": " +:+ d
  | RequestValidationError d => d
  | PyError _ m => m
  end.

(** What a call yields: a value, or a raised exception. *)
Inductive outcome (A : Type) : Type :=
| Return (a : A)
| Raise (e : exn).
Arguments Return {A} a.
Arguments Raise {A} e.

(** The HTTP status the framework answers with. An exception no handler
    catches becomes 500, a body the schema rejects 422. The 422 answer echoes
    the refused input as JSON; the framework's answer to a refused body that
    holds a float that is not finite is not described by this function. *)
Definition http_status {A} (o : outcome A) : Z :=
  match o with
  | Return _ => 200
  | Raise (HTTPException c _) => c
  | Raise (RequestValidationError _) => 422
  | Raise (PyError _ _) => 500
  end.

End Py.
Export Py.

(** ** ObjectId tokens *)

Module Bson.

(** An [ObjectId] holds the bytes read from its hexadecimal digits, twelve
    of them for a 24-digit token; it is kept as the lower-case hexadecimal
    digits of these bytes, which is also what [str] prints. *)
Inductive ObjectId : Type := OID (hex : string).

Definition is_hex (c : ascii) : bool :=
  let n := N_of_ascii c in
  (((48 <=? n) && (n <=? 57)) || ((97 <=? n) && (n <=? 102))
   || ((65 <=? n) && (n <=? 70)))%N.

Fixpoint all_hex (s : string) : bool :=
  match s with
  | EmptyString => true
  | String c s' => is_hex c && all_hex s'
  end.

(** ASCII white space: the space and the characters 9 to 13. *)
Definition is_space (c : ascii) : bool :=
  let n := N_of_ascii c in ((n =? 32) || ((9 <=? n) && (n <=? 13)))%N.

(** [bytes.fromhex(s)]: pairs of hexadecimal digits, with white space
    skipped before a pair; anything else is a [ValueError]. The bytes are
    given by their lower-case digits. *)
Fixpoint fromhex (s : string) : option string :=
  match s with
  | EmptyString => Some EmptyString
  | String c r =>
      if is_space c then fromhex r
      else if is_hex c then
        match r with
        | String d r' =>
            if is_hex d then
              match fromhex r' with
              | Some t => Some (String (lower_ascii c) (String (lower_ascii d) t))
              | None => None
              end
            else None
        | EmptyString => None
        end
      else None
  end.

Definition hex_digit (n : N) : ascii :=
  if (n <? 10)%N then ascii_of_N (48 + n) else ascii_of_N (87 + n).

Fixpoint str_has (c : ascii) (s : string) : bool :=
  match s with
  | EmptyString => false
  | String x s' => Ascii.eqb c x || str_has c s'
  end.

(** [repr(s)] of a [str]: in single quotes, or in double quotes when [s] has
    a single quote and no double quote; the quote and the backslash are
    escaped, the control characters are written [\t], [\n], [\r] or
    [\xhh]. The bytes of the characters beyond ASCII are copied, which is
    what [repr] does with the printable ones. *)
Definition repr_char (quote c : ascii) : string :=
  let n := N_of_ascii c in
  if Ascii.eqb c quote || Ascii.eqb c "\" then String "\" (String c EmptyString)
  else if (n =? 9)%N then "\t"
  else if (n =? 10)%N then "\n"
  else if (n =? 13)%N then "\r"
  else if ((n <? 32) || (n =? 127))%N then
    String "\" (String "x" (String (hex_digit (n / 16)) (String (hex_digit (n mod 16)) EmptyString)))
  else String c EmptyString.

Fixpoint repr_chars (quote : ascii) (s : string) : string :=
  match s with
  | EmptyString => EmptyString
  | String c r => repr_char quote c +:+ repr_chars quote r
  end.

Definition repr_str (s : string) : string :=
  let quote : ascii :=
    if str_has "039" s && negb (str_has "034" s) then "034"%char else "039"%char in
  String quote (repr_chars quote s +:+ String quote EmptyString).

(** [ObjectId(s)] on a [str]: a string of 24 characters that [bytes.fromhex]
    reads, or [InvalidId] with the [repr] of the string in its message. *)
Definition ObjectId_of_str (s : string) : outcome ObjectId :=
  let invalid :=
    Raise (PyError "InvalidId"
             (repr_str s +:+ " is not a valid ObjectId, it must be a 12-byte input or a 24-character hex string")) in
  if (str_len s =? 24)%nat then
    match fromhex s with
    | Some h => Return (OID h)
    | None => invalid
    end
  else invalid.

Definition ObjectId_str (o : ObjectId) : string :=
  match o with OID h => h end.

Definition ObjectId_eqb (a b : ObjectId) : bool :=
  String.eqb (ObjectId_str a) (ObjectId_str b).

Fixpoint hex_digits (k : nat) (n : N) (acc : string) : string :=
  match k with
  | O => acc
  | S k' => hex_digits k' (n / 16)%N (String (hex_digit (n mod 16)%N) acc)
  end.

(** The identifier the store assigns to its [n]-th insert. *)
Definition ObjectId_of_counter (n : N) : ObjectId := OID (hex_digits 24 n "").

End Bson.
Export Bson.

(** ** Regular expressions

    [list_products] hands the query string to the store as a [$regex]
    operand. The store reads it as a Perl-style pattern and looks for a match
    anywhere in the field. The fragment kept here: ordinary characters, [.],
    a backslash before a character that is not a letter or a digit, and the
    postfix operators [*], [+] and [?] on one such atom. [compile] answers
    [None] on every other pattern: on those the store refuses (an unbalanced
    bracket, an operator with nothing before it) and on those that fall
    outside the fragment (groups, alternatives, classes, anchors, counted
    repetition). *)

Module Regex.

Inductive atom : Type :=
| Lit (c : ascii)
| AnyChar.

Inductive quant : Type := One | Star | Plus | Opt.

Inductive token : Type :=
| TAtom (a : atom)
| TQuant (q : quant).

Abbreviation pattern := (list (atom * quant)).

(** The characters with a meaning of their own in a pattern. *)
Definition metachar (c : ascii) : bool :=
  existsb (Ascii.eqb c)
    ["\"; "^"; "$"; "."; "|"; "?"; "*"; "+"; "("; ")"; "["; "]"; "{"; "}"]%char.

Definition alnum (c : ascii) : bool :=
  let n := N_of_ascii c in
  (((48 <=? n) && (n <=? 57)) || ((97 <=? n) && (n <=? 122))
   || ((65 <=? n) && (n <=? 90)))%N.

Definition quant_of (c : ascii) : option quant :=
  if Ascii.eqb c "*" then Some Star
  else if Ascii.eqb c "+" then Some Plus
  else if Ascii.eqb c "?" then Some Opt
  else None.

Fixpoint lex (s : string) : option (list token) :=
  match s with
  | EmptyString => Some []
  | String c r =>
      if Ascii.eqb c "\" then
        match r with
        | EmptyString => None
        | String e r' =>
            if alnum e then None
            else cons (TAtom (Lit e)) <$> lex r'
        end
      else if Ascii.eqb c "." then cons (TAtom AnyChar) <$> lex r
      else match quant_of c with
           | Some q => cons (TQuant q) <$> lex r
           | None =>
               if metachar c then None
               else cons (TAtom (Lit c)) <$> lex r
           end
  end.

Fixpoint group (ts : list token) : option pattern :=
  match ts with
  | [] => Some []
  | TQuant _ :: _ => None
  | TAtom a :: r =>
      match r with
      | TQuant q :: r' =>
          match r' with
          | TQuant _ :: _ => None
          | _ => cons (a, q) <$> group r'
          end
      | _ => cons (a, One) <$> group r
      end
  end.

Definition compile (s : string) : option pattern :=
  lex s ≫= group.

Definition atom_matches (ignore_case : bool) (a : atom) (c : ascii) : bool :=
  match a with
  | AnyChar => negb (Ascii.eqb c "010")
  | Lit x =>
      if ignore_case then Ascii.eqb (lower_ascii x) (lower_ascii c)
      else Ascii.eqb x c
  end.

(** Does the pattern match a prefix of [s]? *)
Fixpoint match_here (ic : bool) (p : pattern) (s : string) {struct p} : bool :=
  match p with
  | [] => true
  | (a, q) :: p' =>
      let one (k : string → bool) (s : string) : bool :=
        match s with
        | String c s' => atom_matches ic a c && k s'
        | EmptyString => false
        end in
      let star :=
        fix star (s : string) : bool :=
          match_here ic p' s
          || match s with
             | String c s' => atom_matches ic a c && star s'
             | EmptyString => false
             end in
      match q with
      | One => one (match_here ic p') s
      | Opt => match_here ic p' s || one (match_here ic p') s
      | Star => star s
      | Plus => one star s
      end
  end.

(** Does the pattern match somewhere in [s]? *)
Fixpoint search (ic : bool) (p : pattern) (s : string) : bool :=
  match_here ic p s
  || match s with
     | String _ s' => search ic p s'
     | EmptyString => false
     end.

End Regex.

(** ** The models of [schemas.py]

    A request body is taken as the framework hands it to the model: a JSON
    object whose keys are already of the JSON type the field reads. A key is
    [Unset] (left out), [Null], or [Given] a value. What the models decide is
    kept: which keys are required, which may be null, the defaults, and the
    bounds [ge] and [le]. *)

Module Schemas.

Inductive field (A : Type) : Type :=
| Unset
| Null
| Given (a : A).
Arguments Unset {A}.
Arguments Null {A}.
Arguments Given {A} a.

(** [x: T = Field(...)]: the key must be there and not null. *)
Definition required {A} (f : field A) : option A :=
  match f with Given a => Some a | _ => None end.

(** [x: Optional[T] = Field(d)]: a missing key reads as the default [d],
    [null] as [None]. *)
Definition optional {A} (d : option A) (f : field A) : option A :=
  match f with Unset => d | Null => None | Given a => Some a end.

(** [x: T = Field(d)]: a missing key reads as [d], [null] is refused. *)
Definition defaulted {A} (d : A) (f : field A) : option A :=
  match f with Unset => Some d | Null => None | Given a => Some a end.

(** [ge=0] on a float and on an optional int, [ge=0, le=100]. *)
Definition float_ge0 (x : float) : bool := PrimFloat.leb 0%float x.

Definition opt_int_ge0 (o : option Z) : bool :=
  match o with Some z => (0 <=? z) | None => true end.

Definition opt_int_in (lo hi : Z) (o : option Z) : bool :=
  match o with Some z => (lo <=? z) && (z <=? hi) | None => true end.

Definition of_opt {A} (inj : A → value) (o : option A) : value :=
  match o with Some a => inj a | None => VNone end.

(** What [BaseModel] gives every model. *)
Class BaseModel (T : Type) : Type := { model_dump : T → dict }.

Module TobaccoProduct.
Record body : Type := Body {
  b_name : field string;
  b_sku : field string;
  b_brand : field string;
  b_category : field string;
  b_barcode : field string;
  b_price : field float;
  b_tax_class : field string;
  b_esl_id : field string;
  b_stock : field Z;
  b_active : field bool
}.

Record t : Type := Make {
  name : string;
  sku : string;
  brand : option string;
  category : option string;
  barcode : option string;
  price : float;
  tax_class : option string;
  esl_id : option string;
  stock : option Z;
  active : bool
}.

Definition validate (b : body) : option t :=
  name ← required (b_name b);
  sku ← required (b_sku b);
  price ← required (b_price b);
  active ← defaulted true (b_active b);
  let p := {| name := name;
              sku := sku;
              brand := optional None (b_brand b);
              category := optional (Some "Tabacco") (b_category b);
              barcode := optional None (b_barcode b);
              price := price;
              tax_class := optional (Some "AAMS") (b_tax_class b);
              esl_id := optional None (b_esl_id b);
              stock := optional (Some 0) (b_stock b);
              active := active |} in
  if float_ge0 price && opt_int_ge0 (stock p) then Some p else None.

Definition dump (p : t) : dict :=
  <["name" := VStr (name p)]>
  (<["sku" := VStr (sku p)]>
  (<["brand" := of_opt VStr (brand p)]>
  (<["category" := of_opt VStr (category p)]>
  (<["barcode" := of_opt VStr (barcode p)]>
  (<["price" := VFloat (price p)]>
  (<["tax_class" := of_opt VStr (tax_class p)]>
  (<["esl_id" := of_opt VStr (esl_id p)]>
  (<["stock" := of_opt VInt (stock p)]>
  (<["active" := VBool (active p)]> ∅))))))))).
End TobaccoProduct.

#[export] Instance TobaccoProduct_model : BaseModel TobaccoProduct.t :=
  {| model_dump := TobaccoProduct.dump |}.

Module Label.
Record body : Type := Body {
  b_esl_id : field string;
  b_status : field string;
  b_battery : field Z;
  b_last_sync : field Z;
  b_product_sku : field string
}.

Record t : Type := Make {
  esl_id : string;
  status : option string;
  battery : option Z;
  last_sync : option Z;
  product_sku : option string
}.

Definition validate (b : body) : option t :=
  esl_id ← required (b_esl_id b);
  let l := {| esl_id := esl_id;
              status := optional (Some "idle") (b_status b);
              battery := optional None (b_battery b);
              last_sync := optional None (b_last_sync b);
              product_sku := optional None (b_product_sku b) |} in
  if opt_int_in 0 100 (battery l) then Some l else None.

Definition dump (l : t) : dict :=
  <["esl_id" := VStr (esl_id l)]>
  (<["status" := of_opt VStr (status l)]>
  (<["battery" := of_opt VInt (battery l)]>
  (<["last_sync" := of_opt VDatetime (last_sync l)]>
  (<["product_sku" := of_opt VStr (product_sku l)]> ∅)))).
End Label.

#[export] Instance Label_model : BaseModel Label.t :=
  {| model_dump := Label.dump |}.

Module PriceUpdate.
Record body : Type := Body {
  b_product_sku : field string;
  b_old_price : field float;
  b_new_price : field float;
  b_scheduled_at : field Z;
  b_status : field string;
  b_note : field string
}.

Record t : Type := Make {
  product_sku : string;
  old_price : float;
  new_price : float;
  scheduled_at : option Z;
  status : string;
  note : option string
}.

Definition validate (b : body) : option t :=
  product_sku ← required (b_product_sku b);
  old_price ← required (b_old_price b);
  new_price ← required (b_new_price b);
  status ← defaulted "done" (b_status b);
  if float_ge0 old_price && float_ge0 new_price
  then Some {| product_sku := product_sku;
               old_price := old_price;
               new_price := new_price;
               scheduled_at := optional None (b_scheduled_at b);
               status := status;
               note := optional None (b_note b) |}
  else None.

Definition dump (u : t) : dict :=
  <["product_sku" := VStr (product_sku u)]>
  (<["old_price" := VFloat (old_price u)]>
  (<["new_price" := VFloat (new_price u)]>
  (<["scheduled_at" := of_opt VDatetime (scheduled_at u)]>
  (<["status" := VStr (status u)]>
  (<["note" := of_opt VStr (note u)]> ∅))))).
End PriceUpdate.

#[export] Instance PriceUpdate_model : BaseModel PriceUpdate.t :=
  {| model_dump := PriceUpdate.dump |}.

(** [ProductUpdate]: every field is optional with default [None]. The model
    remembers which keys the body set ([Null] and [Given]) apart from those
    it left out ([Unset]), which is what [exclude_unset] reads. *)
Module ProductUpdate.
Record t : Type := Make {
  name : field string;
  sku : field string;
  brand : field string;
  category : field string;
  barcode : field string;
  price : field float;
  tax_class : field string;
  esl_id : field string;
  stock : field Z;
  active : field bool
}.

Definition validate (b : t) : option t :=
  let price_ok := match price b with Given x => float_ge0 x | _ => true end in
  let stock_ok := match stock b with Given z => (0 <=? z) | _ => true end in
  if price_ok && stock_ok then Some b else None.

(** One entry of [model_dump(exclude_unset=True)]. *)
Definition put {A} (k : string) (inj : A → value) (f : field A) (d : dict) : dict :=
  match f with
  | Unset => d
  | Null => <[k := VNone]> d
  | Given a => <[k := inj a]> d
  end.

Definition dump_exclude_unset (u : t) : dict :=
  put "name" VStr (name u)
  (put "sku" VStr (sku u)
  (put "brand" VStr (brand u)
  (put "category" VStr (category u)
  (put "barcode" VStr (barcode u)
  (put "price" VFloat (price u)
  (put "tax_class" VStr (tax_class u)
  (put "esl_id" VStr (esl_id u)
  (put "stock" VInt (stock u)
  (put "active" VBool (active u) ∅))))))))).
End ProductUpdate.

Module BulkProducts.
Record body : Type := Body { b_items : field (list TobaccoProduct.body) }.

Record t : Type := Make { items : list TobaccoProduct.t }.

Definition validate (b : body) : option t :=
  raw ← required (b_items b);
  items ← mapM TobaccoProduct.validate raw;
  Some {| items := items |}.
End BulkProducts.

(** [Store], the store profile (named [StoreProfile] here, [Store] being the
    document store below). *)
Module StoreProfile.
Record body : Type := Body {
  b_name : field string;
  b_address : field string;
  b_city : field string;
  b_country : field string
}.

Record t : Type := Make {
  name : string;
  address : option string;
  city : option string;
  country : option string
}.

Definition validate (b : body) : option t :=
  name ← required (b_name b);
  Some {| name := name;
          address := optional None (b_address b);
          city := optional None (b_city b);
          country := optional (Some "IT") (b_country b) |}.

Definition dump (s : t) : dict :=
  <["name" := VStr (name s)]>
  (<["address" := of_opt VStr (address s)]>
  (<["city" := of_opt VStr (city s)]>
  (<["country" := of_opt VStr (country s)]> ∅))).
End StoreProfile.

#[export] Instance StoreProfile_model : BaseModel StoreProfile.t :=
  {| model_dump := StoreProfile.dump |}.

End Schemas.
Export Schemas.

(** ** The document store

    [database.py] is the adapter between the handlers and the store. The
    store keeps, per collection name, the documents in insertion order. A
    document is a dict; its [_id] key, when there, holds an [ObjectId] and is
    kept apart from the other keys. The limits the store puts on the size
    and the nesting depth of a document are not modelled. *)

Module Store.

Record document : Type := Doc {
  doc_id : option ObjectId;
  doc_fields : dict
}.

(** [bool(doc)]: a dict is true when it has a key. *)
Definition doc_truthy (d : document) : bool :=
  is_not_None (doc_id d) || negb (bool_decide (doc_fields d = ∅)).

Record Database : Type := Db {
  name : option string;
  collections : gmap string (list document);
  next_oid : N
}.

(** [db[c]], read. *)
Definition coll (c : string) (d : Database) : list document :=
  default [] (collections d !! c).

Definition set_coll (c : string) (docs : list document) (d : Database) : Database :=
  {| name := name d; collections := <[c := docs]> (collections d); next_oid := next_oid d |}.

(** The filters the handlers build: [{}], [{"_id": oid}], [{k: s}] for a
    string [s], [{k: {"$regex": p, "$options": o}}] and [{"$or": [...]}]. *)
#[warnings="-register-all"]
Inductive query : Type :=
| QAll
| QId (oid : ObjectId)
| QEqStr (k s : string)
| QRegex (k pattern options : string)
| QOr (qs : list query).

Fixpoint has_char (c : ascii) (s : string) : bool :=
  match s with
  | EmptyString => false
  | String x s' => Ascii.eqb c x || has_char c s'
  end.

(** A filter the store takes: every pattern in it compiles. *)
Fixpoint query_ok (q : query) : bool :=
  match q with
  | QRegex _ p _ => is_not_None (Regex.compile p)
  | QOr qs => forallb query_ok qs
  | _ => true
  end.

(** A string filter or a pattern matches a field that holds a string. *)
Fixpoint matches (q : query) (d : document) : bool :=
  match q with
  | QAll => true
  | QId o =>
      match doc_id d with
      | Some o' => ObjectId_eqb o o'
      | None => false
      end
  | QEqStr k s =>
      match doc_fields d !! k with
      | Some (VStr s') => String.eqb s s'
      | _ => false
      end
  | QRegex k p o =>
      match Regex.compile p, doc_fields d !! k with
      | Some r, Some (VStr s) => Regex.search (has_char "i" o) r s
      | _, _ => false
      end
  | QOr qs => existsb (λ q', matches q' d) qs
  end.

(** [db[c].insert_one(data)]: the document goes last and gets a new
    identifier. *)
Definition insert_one (c : string) (data : dict) (d : Database) : ObjectId * Database :=
  let oid := ObjectId_of_counter (next_oid d) in
  (oid,
   {| name := name d;
      collections := <[c := coll c d ++ [Doc (Some oid) data]]> (collections d);
      next_oid := (next_oid d + 1)%N |}).

(** [db[c].find(q)]. A pattern that [Regex.compile] does not read is
    refused; the store reads more patterns than this fragment, so the
    properties of the search are stated for patterns within it. *)
Definition find (c : string) (q : query) (d : Database) : outcome (list document) :=
  if query_ok q then Return (List.filter (matches q) (coll c d))
  else Raise (PyError "OperationFailure" "Regular expression is invalid").

Record UpdateResult : Type := Updated {
  matched_count : Z;
  modified_count : Z
}.

(** [$set]: the given keys overwrite, the other keys stay. A key is the name
    of a top-level field; [$set] reads a key with a dot as a path into nested
    documents, so the properties of a write are stated for keys without
    one. *)
Definition apply_set (set : dict) (x : document) : document :=
  {| doc_id := doc_id x; doc_fields := set ∪ doc_fields x |}.

(** Does [$set] change the document? *)
Definition changes (set : dict) (x : document) : bool :=
  negb (forallb (λ kv : string * value,
                   match doc_fields x !! kv.1 with
                   | Some v => value_eqb kv.2 v
                   | None => false
                   end)
                (map_to_list set)).

(** The first document the filter matches is rewritten. *)
Fixpoint update_first (q : query) (set : dict) (docs : list document)
  : option (list document * bool) :=
  match docs with
  | [] => None
  | x :: r =>
      if matches q x then Some (apply_set set x :: r, changes set x)
      else
        match update_first q set r with
        | Some (r', m) => Some (x :: r', m)
        | None => None
        end
  end.

(** The driver writes an [int] in at most eight bytes. *)
Fixpoint ints_fit (v : value) : bool :=
  match v with
  | VInt z => (- 2 ^ 63 <=? z) && (z <? 2 ^ 63)
  | VList l => forallb ints_fit l
  | VDict d => forallb (λ kv : string * value, ints_fit kv.2) d
  | _ => true
  end.

Definition dict_ints_fit (set : dict) : bool :=
  bool_decide (map_Forall (λ _ v, ints_fit v = true) set).

(** [db[c].update_one(q, {"$set": set})]. The driver refuses an [int]
    beyond eight bytes before anything is sent; the store refuses to rewrite
    the [_id] of the record it matched. The keys of [set] are taken as the
    names of top-level fields. *)
Definition update_one (c : string) (q : query) (set : dict) (d : Database)
  : outcome UpdateResult * Database :=
  if negb (query_ok q) then
    (Raise (PyError "OperationFailure" "Regular expression is invalid"), d)
  else if negb (dict_ints_fit set) then
    (Raise (PyError "OverflowError" "MongoDB can only handle up to 8-byte ints"), d)
  else
    match update_first q set (coll c d) with
    | Some (docs, m) =>
        if is_not_None (set !! "_id") then
          (Raise (PyError "WriteError" "Performing an update on the path '_id' would modify the immutable field '_id'"), d)
        else (Return (Updated 1 (if m then 1 else 0)), set_coll c docs d)
    | None => (Return (Updated 0 0), d)
    end.

Fixpoint delete_first (q : query) (docs : list document) : option (list document) :=
  match docs with
  | [] => None
  | x :: r =>
      if matches q x then Some r
      else cons x <$> delete_first q r
  end.

(** [db[c].delete_one(q)], with the deleted count. *)
Definition delete_one (c : string) (q : query) (d : Database) : outcome Z * Database :=
  if negb (query_ok q) then
    (Raise (PyError "OperationFailure" "Regular expression is invalid"), d)
  else
    match delete_first q (coll c d) with
    | Some docs => (Return 1, set_coll c docs d)
    | None => (Return 0, d)
    end.

(** *** Handlers as state transformers

    The process-wide handle [db] is [None] or the store. A handler reads and
    writes it and ends in a value or an exception; what was written before
    an exception stays written. *)

Definition M (A : Type) : Type := option Database → outcome A * option Database.

Definition ret {A} (a : A) : M A := λ db, (Return a, db).

Definition raise {A} (e : exn) : M A := λ db, (Raise e, db).

Definition bind {A B} (m : M A) (k : A → M B) : M B :=
  λ db, match m db with
        | (Return a, db') => k a db'
        | (Raise e, db') => (Raise e, db')
        end.

#[export] Instance M_ret : MRet M := @ret.
#[export] Instance M_bind : MBind M := λ A B k m, bind m k.

(** [try: body / except Exception as e: handler]. *)
Definition try_except {A} (body : M A) (handler : exn → M A) : M A :=
  λ db, match body db with
        | (Raise e, db') => handler e db'
        | r => r
        end.

Definition get_db : M (option Database) := λ db, (Return db, db).

(** Lifting [ObjectId(s)] and a method of [db[c]]; the latter on a handle
    that is [None] is a [TypeError]. *)
Definition lift {A} (o : outcome A) : M A := λ db, (o, db).

Definition on_db {A} (f : Database → outcome A * Database) : M A :=
  λ db, match db with
        | Some d => let '(o, d') := f d in (o, Some d')
        | None => (Raise (PyError "TypeError" "'NoneType' object is not subscriptable"), None)
        end.

(** Modelled from the spec: [create_document] of [database.py], which is not
    among the sources. The spec has the adapter insert the document and
    return the newly assigned identifier as a string; with no store it fails
    as unavailable. *)
Definition create_document {T} `{BaseModel T} (collection_name : string) (data : T) : M string :=
  λ db, match db with
        | Some d =>
            let '(oid, d') := insert_one collection_name (model_dump data) d in
            (Return (ObjectId_str oid), Some d')
        | None => (Raise (PyError "Exception" "Database not available"), None)
        end.

(** Modelled from the spec: [get_documents] of [database.py], which is not
    among the sources. The spec has the adapter find the documents of a
    collection that pass the filter, at most [limit] of them, in the store's
    order. *)
Definition get_documents (collection_name : string) (filter_dict : query) (limit : Z)
  : M (list document) :=
  λ db, match db with
        | Some d =>
            match find collection_name filter_dict d with
            | Return docs => (Return (take (Z.to_nat limit) docs), db)
            | Raise e => (Raise e, db)
            end
        | None => (Raise (PyError "Exception" "Database not available"), None)
        end.

End Store.
Export Store.

(** ** The handlers of [main.py] *)

Module Main.

Section Introspection.

(** The process environment and the store's answer to
    [list_collection_names], which may be an exception. *)
Variable getenv : string → option string.
Variable list_collection_names : Database → outcome (list string).

Definition test_database : M dict :=
  let response : dict :=
    <["backend" := VStr "✅ Running"]>
    (<["database" := VStr "❌ Not Available"]>
    (<["database_url" := VNone]>
    (<["database_name" := VNone]>
    (<["connection_status" := VStr "Not Connected"]>
    (<["collections" := VList []]> ∅))))) in
  try_except
    (db ← get_db;
     match db with
     | Some d =>
         let response := <["database" := VStr "✅ Connected & Working"]> response in
         let response :=
           <["database_url" :=
               VStr (if is_not_None (getenv "DATABASE_URL")
                          && str_truthy (default "" (getenv "DATABASE_URL"))
                     then "✅ Set" else "❌ Not Set")]> response in
         let response :=
           <["database_name" :=
               VStr (match name d with Some n => n | None => "✅ Connected" end)]>
             response in
         let response := <["connection_status" := VStr "Connected"]> response in
         try_except
           (collections ← lift (list_collection_names d);
            mret (<["collections" := VList (VStr <$> take 10 collections)]> response))
           (λ e, mret (<["database" :=
                           VStr ("⚠️  Connected but Error: " +:+ str_take 50 (exn_str e))]>
                         response))
     | None =>
         mret (<["database" := VStr "⚠️  Available but not initialized"]> response)
     end)
    (λ e, mret (<["database" := VStr ("❌ Error: " +:+ str_take 50 (exn_str e))]> response)).

End Introspection.

(** [_serialize]: the [_id] of a document becomes the string under [id]. *)
Definition _serialize (doc : document) : document :=
  if negb (doc_truthy doc) then doc
  else
    match doc_id doc with
    | Some oid =>
        {| doc_id := None;
           doc_fields := <["id" := VStr (ObjectId_str oid)]> (doc_fields doc) |}
    | None => doc
    end.

Definition create_product (product : TobaccoProduct.t) : M dict :=
  product_id ← create_document "tobaccoproduct" product;
  mret (<["id" := VStr product_id]> ∅).

(** The loop of [create_products_bulk], with the list [inserted] so far. *)
Fixpoint insert_each (items : list TobaccoProduct.t) (inserted : list string) : M (list string) :=
  match items with
  | [] => mret inserted
  | item :: rest =>
      i ← create_document "tobaccoproduct" item;
      insert_each rest (inserted ++ [i])
  end.

Definition create_products_bulk (payload : BulkProducts.t) : M dict :=
  inserted ← insert_each (BulkProducts.items payload) [];
  mret (<["inserted" := VList (VStr <$> inserted)]>
        (<["count" := VInt (Z.of_nat (length inserted))]> ∅)).

Definition list_products (q : option string) (limit : Z) : M (list document) :=
  let filter_dict :=
    match q with
    | Some q' =>
        if str_truthy q' then
          QOr [QRegex "name" q' "i"; QRegex "brand" q' "i"; QRegex "sku" q' "i"]
        else QAll
    | None => QAll
    end in
  docs ← get_documents "tobaccoproduct" filter_dict limit;
  mret (_serialize <$> docs).

(** [{k: v for k, v in d.items() if v is not None}]. *)
Definition drop_None (d : dict) : dict :=
  filter (λ kv : string * value, is_None kv.2 = false) d.

Definition update_product (product_id : string) (updates : ProductUpdate.t) : M dict :=
  db ← get_db;
  match db with
  | None => raise (HTTPException 500 "Database not available")
  | Some _ =>
      try_except
        (let updates_dict := drop_None (ProductUpdate.dump_exclude_unset updates) in
         if bool_decide (updates_dict = ∅) then mret (<["updated" := VInt 0]> ∅)
         else
           oid ← lift (ObjectId_of_str product_id);
           res ← on_db (update_one "tobaccoproduct" (QId oid) updates_dict);
           mret (<["updated" := VInt (modified_count res)]> ∅))
        (λ e, raise (HTTPException 400 (exn_str e)))
  end.

Definition delete_product (product_id : string) : M dict :=
  db ← get_db;
  match db with
  | None => raise (HTTPException 500 "Database not available")
  | Some _ =>
      oid ← lift (ObjectId_of_str product_id);
      n ← on_db (delete_one "tobaccoproduct" (QId oid));
      mret (<["deleted" := VInt n]> ∅)
  end.

Definition create_label (label : Label.t) : M dict :=
  label_id ← create_document "label" label;
  mret (<["id" := VStr label_id]> ∅).

Definition list_labels (limit : Z) : M (list document) :=
  docs ← get_documents "label" QAll limit;
  mret (_serialize <$> docs).

Definition update_label (label_id : string) (payload : dict) : M dict :=
  db ← get_db;
  match db with
  | None => raise (HTTPException 500 "Database not available")
  | Some _ =>
      oid ← lift (ObjectId_of_str label_id);
      res ← on_db (update_one "label" (QId oid) payload);
      mret (<["updated" := VInt (modified_count res)]> ∅)
  end.

Section PriceUpdateHandler.

(** [bool(db)] of a handle that is not [None]. The class of the handle
    decides it: an object without [__bool__] and [__len__] is true, and a
    class may define [__bool__] to raise. *)
Variable handle_bool : Database → outcome bool.

(** [bool(db)]: [None] is false. *)
Definition db_truthy : M bool :=
  λ db, match db with
        | Some d => (handle_bool d, db)
        | None => (Return false, db)
        end.

(** [new_price] is a required [float] of the model, so the attribute is
    never [None]. *)
Definition create_price_update (update : PriceUpdate.t) : M dict :=
  upd_id ← create_document "priceupdate" update;
  available ← db_truthy;
  if available && is_not_None (Some (PriceUpdate.new_price update)) then
    _ ← on_db (update_one "tobaccoproduct"
                 (QEqStr "sku" (PriceUpdate.product_sku update))
                 (<["price" := VFloat (PriceUpdate.new_price update)]> ∅));
    mret (<["id" := VStr upd_id]> ∅)
  else mret (<["id" := VStr upd_id]> ∅).

End PriceUpdateHandler.

Definition list_price_updates (limit : Z) : M (list document) :=
  docs ← get_documents "priceupdate" QAll limit;
  mret (_serialize <$> docs).

(** *** The routes: the framework validates the body against the model of
    the handler's parameter before it calls the handler. *)

Definition with_body {B T A} (validate : B → option T) (handler : T → M A) (body : B) : M A :=
  match validate body with
  | Some x => handler x
  | None => raise (RequestValidationError "Unprocessable Entity")
  end.

Definition POST_products : TobaccoProduct.body → M dict :=
  with_body TobaccoProduct.validate create_product.

Definition POST_products_bulk : BulkProducts.body → M dict :=
  with_body BulkProducts.validate create_products_bulk.


Definition PATCH_products (product_id : string) : ProductUpdate.t → M dict :=
  with_body ProductUpdate.validate (update_product product_id).

Definition POST_labels : Label.body → M dict :=
  with_body Label.validate create_label.

Definition PATCH_labels (label_id : string) (payload : dict) : M dict :=
  update_label label_id payload.

Definition POST_price_updates (handle_bool : Database → outcome bool)
  : PriceUpdate.body → M dict :=
  with_body PriceUpdate.validate (create_price_update handle_bool).

(** [root] and [get_schema]: fixed answers. *)
Definition root : M dict :=
  mret (<["name" := VStr "TabaDigit ESL API"]> (<["status" := VStr "ok"]> ∅)).

Record SchemaInfo : Type := { collections_of : list string }.

Definition get_schema : M SchemaInfo :=
  mret {| collections_of := ["tobaccoproduct"; "label"; "priceupdate"; "store"] |}.

End Main.
Export Main.

(** ** The words of the specification *)

Module Spec.

(** [q] occurs in [s] as a substring, letter case aside. *)
Definition ci_substring (q s : string) : Prop :=
  ∃ pre post, lower s = pre +:+ lower q +:+ post.

(** The key [k] of the record holds a string in which [q] occurs. *)
Definition field_has (q : string) (x : document) (k : string) : Prop :=
  ∃ s, doc_fields x !! k = Some (VStr s) ∧ ci_substring q s.

(** [q] occurs in the name, the brand or the sku of the record. *)
Definition q_occurs (q : string) (x : document) : Prop :=
  field_has q x "name" ∨ field_has q x "brand" ∨ field_has q x "sku".

(** A query string with no character that a pattern reads specially. *)
Fixpoint plain (q : string) : bool :=
  match q with
  | EmptyString => true
  | String c r => negb (Regex.metachar c) && plain r
  end.

(** The pattern that reads every character of [q] literally. *)
Fixpoint literal (q : string) : Regex.pattern :=
  match q with
  | EmptyString => []
  | String c r => (Regex.Lit c, Regex.One) :: literal r
  end.

(** The record has the sku [s]. *)
Definition has_sku (s : string) (x : document) : Prop :=
  doc_fields x !! "sku" = Some (VStr s).

(** The record has the identifier [oid]. *)
Definition has_id (oid : ObjectId) (x : document) : Prop :=
  doc_id x = Some oid.

(** A field of a partial update that the body gives a value. *)
Definition given {A} (inj : A → value) (f : field A) : option value :=
  match f with Given a => Some (inj a) | _ => None end.

(** The value the body of a partial update gives the key [k], if any. *)
Definition given_value (u : ProductUpdate.t) (k : string) : option value :=
  if decide (k = "name") then given VStr (ProductUpdate.name u)
  else if decide (k = "sku") then given VStr (ProductUpdate.sku u)
  else if decide (k = "brand") then given VStr (ProductUpdate.brand u)
  else if decide (k = "category") then given VStr (ProductUpdate.category u)
  else if decide (k = "barcode") then given VStr (ProductUpdate.barcode u)
  else if decide (k = "price") then given VFloat (ProductUpdate.price u)
  else if decide (k = "tax_class") then given VStr (ProductUpdate.tax_class u)
  else if decide (k = "esl_id") then given VStr (ProductUpdate.esl_id u)
  else if decide (k = "stock") then given VInt (ProductUpdate.stock u)
  else if decide (k = "active") then given VBool (ProductUpdate.active u)
  else None.

(** Every field of the body is absent or null. *)
Definition absent_or_null {A} (f : field A) : Prop := f = Unset ∨ f = Null.

Definition all_absent_or_null (u : ProductUpdate.t) : Prop :=
  absent_or_null (ProductUpdate.name u) ∧ absent_or_null (ProductUpdate.sku u)
  ∧ absent_or_null (ProductUpdate.brand u) ∧ absent_or_null (ProductUpdate.category u)
  ∧ absent_or_null (ProductUpdate.barcode u) ∧ absent_or_null (ProductUpdate.price u)
  ∧ absent_or_null (ProductUpdate.tax_class u) ∧ absent_or_null (ProductUpdate.esl_id u)
  ∧ absent_or_null (ProductUpdate.stock u) ∧ absent_or_null (ProductUpdate.active u).

(** The documents the store appends for a batch, numbered from [n]. *)
Fixpoint batch_docs (n : N) (items : list TobaccoProduct.t) : list document :=
  match items with
  | [] => []
  | p :: rest =>
      Doc (Some (ObjectId_of_counter n)) (TobaccoProduct.dump p)
      :: batch_docs (n + 1)%N rest
  end.

(** The identifiers the store assigns to a batch, numbered from [n]. *)
Fixpoint batch_ids (n : N) (items : list TobaccoProduct.t) : list string :=
  match items with
  | [] => []
  | _ :: rest => ObjectId_str (ObjectId_of_counter n) :: batch_ids (n + 1)%N rest
  end.

(** The store after the handler: the record is inserted, then the first
    product with the sku, if there is one, has its price set. *)
Definition after_price_update (u : PriceUpdate.t) (d : Database) : Database :=
  let d1 := (insert_one "priceupdate" (PriceUpdate.dump u) d).2 in
  match update_first (QEqStr "sku" (PriceUpdate.product_sku u))
          (<["price" := VFloat (PriceUpdate.new_price u)]> ∅)
          (coll "tobaccoproduct" d1) with
  | Some (docs, _) => set_coll "tobaccoproduct" docs d1
  | None => d1
  end.

End Spec.
Export Spec.

(** ** Sample data *)

Module Sample.

Definition db0 : Database := Db (Some "esl") ∅ 1.

Definition marlboro : TobaccoProduct.body :=
  TobaccoProduct.Body (Given "Marlboro Gold 20") (Given "MG20") Unset Unset Unset
    (Given 5.5%float) Unset Unset Unset Unset.

(** The store after [POST /api/products] of [marlboro]. *)
Definition db1 : option Database := (POST_products marlboro (Some db0)).2.

Definition marlboro_doc : document :=
  Doc (Some (OID "000000000000000000000001"))
    (<["name" := VStr "Marlboro Gold 20"]>
    (<["sku" := VStr "MG20"]>
    (<["brand" := VNone]>
    (<["category" := VStr "Tabacco"]>
    (<["barcode" := VNone]>
    (<["price" := VFloat 5.5%float]>
    (<["tax_class" := VStr "AAMS"]>
    (<["esl_id" := VNone]>
    (<["stock" := VInt 0]>
    (<["active" := VBool true]> ∅)))))))))).

Definition d1 : Database :=
  Db (Some "esl") (<["tobaccoproduct" := [marlboro_doc]]> ∅) 2.

Definition label_doc : document :=
  Doc (Some (OID "000000000000000000000002"))
    (<["esl_id" := VStr "ESL-7"]> (<["battery" := VInt 80]> ∅)).

(** A store with one product and one label. *)
Definition d2 : Database :=
  Db (Some "esl")
    (<["label" := [label_doc]]> (<["tobaccoproduct" := [marlboro_doc]]> ∅)) 3.

(** The body [{"battery": 150}]. *)
Definition battery_150 : dict := <["battery" := VInt 150]> ∅.

Definition camel : TobaccoProduct.body :=
  TobaccoProduct.Body (Given "Camel Blue 20") (Given "CB20") (Given "Camel") Unset Unset
    (Given 5.25%float) Unset Unset (Given 12) Unset.

(** A body with a negative price. *)
Definition negative_price : TobaccoProduct.body :=
  TobaccoProduct.Body (Given "Free") (Given "F0") Unset Unset Unset
    (Given (-1)%float) Unset Unset Unset Unset.

(** The body [{"product_sku": "MG20", "old_price": 5.5, "new_price": 12.5}]. *)
Definition reprice : PriceUpdate.body :=
  PriceUpdate.Body (Given "MG20") (Given 5.5%float) (Given 12.5%float) Unset Unset Unset.



Definition no_fields : ProductUpdate.t :=
  ProductUpdate.Make Unset Unset Unset Unset Unset Unset Unset Unset Unset Unset.

(** The body [{"price": 6.0, "brand": null}]. *)
Definition new_price : ProductUpdate.t :=
  ProductUpdate.Make Unset Unset Null Unset Unset (Given 6%float) Unset Unset Unset Unset.


(** The body [{"stock": -3}]. *)
Definition negative_stock : ProductUpdate.t :=
  ProductUpdate.Make Unset Unset Unset Unset Unset Unset Unset Unset (Given (-3)) Unset.


(** An identifier of 24 characters, two of them spaces. *)
Definition spaced_id : string := "00 00 000000000000000001".

End Sample.

(** ** Further words for the properties of the handlers *)

Module Props.

(** One [POST /api/products] per item, in order, with the responses. *)
Fixpoint post_each (items : list TobaccoProduct.t) : M (list dict) :=
  match items with
  | [] => mret []
  | item :: rest =>
      r ← create_product item;
      rs ← post_each rest;
      mret (r :: rs)
  end.

(** The response [{"id": i}]. *)
Definition id_response (i : string) : dict := <["id" := VStr i]> ∅.

(** Two records with the same identifier that differ at most in [price]. *)
Definition same_but_price (x x' : document) : Prop :=
  doc_id x' = doc_id x
  ∧ ∀ k, k ≠ "price" → doc_fields x' !! k = doc_fields x !! k.

(** The identifiers of the records of a collection, in order. *)
Definition ids_of (c : string) (d : Database) : list (option ObjectId) :=
  doc_id <$> coll c d.

(** The status is one of the listed ones. *)
Definition status_in (codes : list Z) {A} (o : outcome A) : Prop :=
  http_status o ∈ codes.

(** The bodies the models accept, field by field. *)
Definition acceptable_product (b : TobaccoProduct.body) : Prop :=
  (∃ n, TobaccoProduct.b_name b = Given n)
  ∧ (∃ s, TobaccoProduct.b_sku b = Given s)
  ∧ (∃ x, TobaccoProduct.b_price b = Given x ∧ PrimFloat.leb 0%float x = true)
  ∧ TobaccoProduct.b_active b ≠ Null
  ∧ (∀ z, TobaccoProduct.b_stock b = Given z → 0 ≤ z).

Definition acceptable_label (b : Label.body) : Prop :=
  (∃ e, Label.b_esl_id b = Given e)
  ∧ (∀ z, Label.b_battery b = Given z → 0 ≤ z ≤ 100).

Definition acceptable_price_update (b : PriceUpdate.body) : Prop :=
  (∃ s, PriceUpdate.b_product_sku b = Given s)
  ∧ (∃ x, PriceUpdate.b_old_price b = Given x ∧ PrimFloat.leb 0%float x = true)
  ∧ (∃ x, PriceUpdate.b_new_price b = Given x ∧ PrimFloat.leb 0%float x = true)
  ∧ PriceUpdate.b_status b ≠ Null.

Definition acceptable_product_update (u : ProductUpdate.t) : Prop :=
  (∀ x, ProductUpdate.price u = Given x → PrimFloat.leb 0%float x = true)
  ∧ (∀ z, ProductUpdate.stock u = Given z → 0 ≤ z).

Definition acceptable_store (b : StoreProfile.body) : Prop :=
  ∃ n, StoreProfile.b_name b = Given n.

(** The store after a batch of products is inserted one by one. *)
Fixpoint after_batch (items : list TobaccoProduct.t) (d : Database) : Database :=
  match items with
  | [] => d
  | p :: rest => after_batch rest (insert_one "tobaccoproduct" (TobaccoProduct.dump p) d).2
  end.

(** With the store there, a handler keeps the handle and writes to the
    collections [cs] only. *)
Definition writes_only (cs : list string) {A} (m : M A) : Prop :=
  ∀ d, ∃ d', (m (Some d)).2 = Some d' ∧ ∀ c, c ∉ cs → coll c d' = coll c d.

(** The keys of a product record, and a store whose product records have
    exactly these keys. *)
Definition product_keys : gset string :=
  {[ "name"; "sku"; "brand"; "category"; "barcode";
     "price"; "tax_class"; "esl_id"; "stock"; "active" ]}.

Definition products_keyed (d : Database) : Prop :=
  Forall (λ x, dom (doc_fields x) = product_keys) (coll "tobaccoproduct" d).

(** With the store there, a handler keeps the property [I] of the store. *)
Definition keeps (I : Database → Prop) {A} (m : M A) : Prop :=
  ∀ d d', I d → (m (Some d)).2 = Some d' → I d'.


(** A string of ASCII characters, and one of printable ASCII characters. *)
Fixpoint ascii_text (s : string) : bool :=
  match s with
  | EmptyString => true
  | String c r => (N_of_ascii c <? 128)%N && ascii_text r
  end.

Fixpoint printable_text (s : string) : bool :=
  match s with
  | EmptyString => true
  | String c r => (32 <=? N_of_ascii c)%N && (N_of_ascii c <=? 126)%N && printable_text r
  end.

(** A field that is missing, null or an ASCII string; a record whose name,
    brand and sku are such fields. *)
Definition text_or_null (o : option value) : Prop :=
  match o with
  | None | Some VNone => True
  | Some (VStr s) => ascii_text s = true
  | Some _ => False
  end.

Definition searchable (x : document) : Prop :=
  text_or_null (doc_fields x !! "name")
  ∧ text_or_null (doc_fields x !! "brand")
  ∧ text_or_null (doc_fields x !! "sku").




(** [bool(db)] of the driver's [Database]: its class defines [__bool__] to
    raise. *)
Definition pymongo_bool : Database → outcome bool :=
  λ _, Raise (PyError "NotImplementedError"
                "Database objects do not implement truth value testing or bool(). Please compare with None instead: database is not None").

End Props.
Export Props.

(** ** Patterns without special characters are substring searches *)

Section LiteralPatterns.

Lemma lower_ascii_eqb (x c : ascii) :
  Ascii.eqb (lower_ascii x) (lower_ascii c) = true ↔ lower_ascii x = lower_ascii c.
Proof. apply Ascii.eqb_eq. Qed.

Lemma plain_cons c r : plain (String c r) = true → Regex.metachar c = false ∧ plain r = true.
Proof.
  simpl. intros H. apply andb_true_iff in H as [H1 H2].
  split; [by apply negb_true_iff|done].
Qed.

Lemma metachar_false_inv c :
  Regex.metachar c = false →
  Ascii.eqb c "\" = false ∧ Ascii.eqb c "." = false ∧ Regex.quant_of c = None.
Proof.
  unfold Regex.metachar, Regex.quant_of. simpl. intros H.
  repeat (apply orb_false_iff in H as [? H]).
  repeat split; try done.
  repeat match goal with
         | E : Ascii.eqb c ?x = false |- context [Ascii.eqb c ?x] => rewrite E
         end.
  done.
Qed.

Lemma lex_plain q :
  plain q = true →
  Regex.lex q = Some ((λ i, Regex.TAtom (fst i)) <$> literal q).
Proof.
  induction q as [|c r IH]; [done|].
  intros [Hc Hr]%plain_cons.
  destruct (metachar_false_inv c Hc) as (E1 & E2 & E3).
  cbn [Regex.lex]. rewrite E1, E2, E3, Hc, (IH Hr). done.
Qed.

Lemma group_literal q :
  Regex.group ((λ i, Regex.TAtom (fst i)) <$> literal q) = Some (literal q).
Proof.
  induction q as [|c r IH]; [done|].
  cbn [literal fmap list_fmap fst Regex.group].
  destruct r as [|c' r']; [done|].
  cbn [literal fmap list_fmap fst] in *.
  by rewrite IH.
Qed.

Lemma compile_plain q : plain q = true → Regex.compile q = Some (literal q).
Proof.
  intros H. unfold Regex.compile. rewrite (lex_plain q H). simpl.
  apply group_literal.
Qed.

Lemma match_here_literal q s :
  Regex.match_here true (literal q) s = true ↔ ∃ post, lower s = lower q +:+ post.
Proof.
  revert s. induction q as [|c r IH]; intros s.
  - simpl. split; [intros _; by exists (lower s)|done].
  - cbn [literal Regex.match_here]. destruct s as [|x s'].
    + split; [done|]. intros [post H]. simpl in H. discriminate.
    + cbn [Regex.atom_matches lower]. rewrite andb_true_iff, lower_ascii_eqb, IH.
      split.
      * intros [E [post H]]. exists post. simpl. by rewrite E, H.
      * intros [post H]. simpl in H. injection H as E H. split; [done|by exists post].
Qed.

Lemma search_literal q s :
  Regex.search true (literal q) s = true ↔ ci_substring q s.
Proof.
  unfold ci_substring. induction s as [|x s' IH].
  - simpl. rewrite orb_false_r, match_here_literal. split.
    + intros [post H]. by exists "", post.
    + intros (pre & post & H). destruct pre as [|? ?]; [|discriminate].
      by exists post.
  - cbn [Regex.search]. rewrite orb_true_iff, match_here_literal, IH. split.
    + intros [[post H]|(pre & post & H)].
      * by exists "", post.
      * exists (String (lower_ascii x) pre), post. simpl. by rewrite H.
    + intros (pre & post & H). destruct pre as [|y pre'].
      * left. by exists post.
      * right. simpl in H. injection H as _ H. by exists pre', post.
Qed.

End LiteralPatterns.

(** ** Facts about the store *)

Section StoreFacts.

Lemma ObjectId_eqb_eq (a b : ObjectId) : ObjectId_eqb a b = true ↔ a = b.
Proof.
  destruct a as [x], b as [y]. unfold ObjectId_eqb. simpl.
  rewrite String.eqb_eq. split; [by intros ->|by intros [= ->]].
Qed.

Lemma matches_QId oid x : matches (QId oid) x = true ↔ has_id oid x.
Proof.
  unfold has_id. simpl. destruct (doc_id x) as [o|]; [|done].
  rewrite ObjectId_eqb_eq. split; [by intros ->|by intros [= ->]].
Qed.

Lemma matches_QEqStr k s x :
  matches (QEqStr k s) x = true ↔ doc_fields x !! k = Some (VStr s).
Proof.
  simpl. destruct (doc_fields x !! k) as [[]|]; try done.
  rewrite String.eqb_eq. split; [by intros ->|by intros [= ->]].
Qed.



Lemma coll_set_coll_eq c docs d : coll c (set_coll c docs d) = docs.
Proof. unfold coll, set_coll. simpl. by rewrite lookup_insert_eq. Qed.

Lemma coll_set_coll_ne c c' docs d : c ≠ c' → coll c' (set_coll c docs d) = coll c' d.
Proof. intros. unfold coll, set_coll. simpl. by rewrite lookup_insert_ne. Qed.

Lemma coll_insert_one_eq c data d :
  coll c (insert_one c data d).2
  = coll c d ++ [Doc (Some (ObjectId_of_counter (next_oid d))) data].
Proof. unfold coll, insert_one. simpl. by rewrite lookup_insert_eq. Qed.

Lemma coll_insert_one_ne c c' data d :
  c ≠ c' → coll c' (insert_one c data d).2 = coll c' d.
Proof. intros. unfold coll, insert_one. simpl. by rewrite lookup_insert_ne. Qed.



Lemma str_truthy_nonempty q : q ≠ "" → str_truthy q = true.
Proof. intros H. unfold str_truthy. destruct q; [done|reflexivity]. Qed.

Lemma regex_field_has q x k :
  plain q = true →
  matches (QRegex k q "i") x = true ↔ field_has q x k.
Proof.
  intros Hq. unfold field_has. simpl. rewrite (compile_plain q Hq).
  destruct (doc_fields x !! k) as [v|] eqn:E.
  - destruct v; try (split; [done|by intros (s & [= ?] & _)]).
    change (has_char "i" "i") with true. rewrite search_literal.
    split; [intros H; by eexists|by intros (s' & [= <-] & H)].
  - split; [done|by intros (s & ? & _)].
Qed.


Lemma products_query_occurs q x :
  plain q = true →
  matches (QOr [QRegex "name" q "i"; QRegex "brand" q "i"; QRegex "sku" q "i"]) x = true
  ↔ q_occurs q x.
Proof.
  intros Hq. unfold q_occurs.
  rewrite <- !(regex_field_has q x) by done.
  cbn [matches existsb]. rewrite !orb_true_iff. intuition discriminate.
Qed.

Lemma products_query_ok q :
  plain q = true →
  query_ok (QOr [QRegex "name" q "i"; QRegex "brand" q "i"; QRegex "sku" q "i"]) = true.
Proof. intros Hq. simpl. by rewrite (compile_plain q Hq). Qed.

(** The sample store [d1] is what creating the sample product gives. *)
Lemma sample_db1 : Sample.db1 = Some Sample.d1.
Proof. vm_compute. reflexivity. Qed.


Lemma sample_db0_searchable : Forall searchable (coll "tobaccoproduct" Sample.db0).
Proof. constructor. Defined.

End StoreFacts.

(** ** Listing products by a query string *)




(** ** Partial update of a product *)

Section UpdateProduct.

Lemma lookup_put {A} k' (inj : A → value) f (d : dict) k :
  ProductUpdate.put k' inj f d !! k
  = if decide (k = k') then
      match f with Unset => d !! k | Null => Some VNone | Given a => Some (inj a) end
    else d !! k.
Proof.
  unfold ProductUpdate.put. case_decide as E.
  - subst. destruct f; by rewrite ?lookup_insert_eq.
  - destruct f; by rewrite ?lookup_insert_ne.
Qed.

(** [updates_dict] holds exactly what the body gives. *)
Lemma updates_dict_lookup u k :
  drop_None (ProductUpdate.dump_exclude_unset u) !! k = given_value u k.
Proof.
  unfold drop_None. rewrite map_lookup_filter.
  unfold ProductUpdate.dump_exclude_unset, given_value.
  rewrite !lookup_put.
  repeat case_decide; subst; try discriminate;
    lazymatch goal with
    | |- context [given _ ?f] => destruct f; simpl; try done
    | |- _ => idtac
    end.
  all: try (rewrite lookup_empty; done).
Qed.

Lemma given_absent {A} (inj : A → value) f : given inj f = None ↔ absent_or_null f.
Proof.
  unfold absent_or_null. destruct f; simpl; split; intros H; try done; auto.
  by destruct H.
Qed.

Lemma updates_dict_empty u :
  drop_None (ProductUpdate.dump_exclude_unset u) = ∅ ↔ all_absent_or_null u.
Proof.
  rewrite map_empty. setoid_rewrite updates_dict_lookup.
  unfold all_absent_or_null. rewrite <- !given_absent. split.
  - intros H.
    repeat split;
      [exact (H "name") | exact (H "sku") | exact (H "brand")
      | exact (H "category") | exact (H "barcode") | exact (H "price")
      | exact (H "tax_class") | exact (H "esl_id") | exact (H "stock")
      | exact (H "active")].
  - intros (?&?&?&?&?&?&?&?&?&?) k. unfold given_value.
    repeat case_decide; done.
Qed.

Lemma updates_dict_no_id u :
  is_not_None (drop_None (ProductUpdate.dump_exclude_unset u) !! "_id") = false.
Proof. by rewrite updates_dict_lookup. Qed.

Lemma validate_absent u : all_absent_or_null u → ProductUpdate.validate u = Some u.
Proof.
  intros (_&_&_&_&_&Hp&_&_&Hs&_). unfold ProductUpdate.validate.
  destruct Hp as [-> | ->], Hs as [-> | ->]; done.
Qed.

Lemma update_product_no_fields product_id u d :
  all_absent_or_null u →
  update_product product_id u (Some d) = (Return (<["updated" := VInt 0]> ∅), Some d).
Proof.
  intros H%updates_dict_empty. unfold update_product.
  unfold mbind, M_bind, bind, get_db, try_except. rewrite H.
  by rewrite bool_decide_eq_true_2.
Qed.

Lemma update_product_unavailable product_id u :
  update_product product_id u None
  = (Raise (HTTPException 500 "Database not available"), None).
Proof. reflexivity. Qed.


(** What [update_product] does with the store there, case by case. *)
Lemma update_product_cases product_id u d :
  update_product product_id u (Some d)
  = let updates_dict := drop_None (ProductUpdate.dump_exclude_unset u) in
    if bool_decide (updates_dict = ∅) then (Return (<["updated" := VInt 0]> ∅), Some d)
    else
      match ObjectId_of_str product_id with
      | Raise e => (Raise (HTTPException 400 (exn_str e)), Some d)
      | Return oid =>
          if dict_ints_fit updates_dict then
            match update_first (QId oid) updates_dict (coll "tobaccoproduct" d) with
            | Some (docs, m) =>
                (Return (<["updated" := VInt (if m then 1 else 0)]> ∅),
                 Some (set_coll "tobaccoproduct" docs d))
            | None => (Return (<["updated" := VInt 0]> ∅), Some d)
            end
          else
            (Raise (HTTPException 400 "MongoDB can only handle up to 8-byte ints"), Some d)
      end.
Proof.
  unfold update_product, mbind, M_bind, bind, get_db, try_except.
  cbn zeta. destruct (bool_decide _); [reflexivity|].
  unfold lift. destruct (ObjectId_of_str product_id) as [oid|e]; [|reflexivity].
  unfold on_db, update_one. cbn [query_ok negb].
  destruct (dict_ints_fit _); [|reflexivity]. cbn [negb].
  rewrite updates_dict_no_id.
  destruct (update_first _ _ _) as [[docs m]|]; reflexivity.
Qed.

Lemma update_product_bad_id product_id u d e :
  ¬ all_absent_or_null u →
  ObjectId_of_str product_id = Raise e →
  update_product product_id u (Some d) = (Raise (HTTPException 400 (exn_str e)), Some d).
Proof.
  intros H%(not_iff_compat (updates_dict_empty u)) E.
  rewrite update_product_cases. cbn zeta.
  rewrite bool_decide_eq_false_2 by done. by rewrite E.
Qed.

Lemma not_has_id_matches oid l :
  Forall (λ y, ¬ has_id oid y) l → Forall (λ y, matches (QId oid) y = false) l.
Proof.
  intros H. eapply Forall_impl; [exact H|]. intros y Hy. simpl in Hy.
  destruct (matches (QId oid) y) eqn:Em; [|done].
  apply matches_QId in Em. contradiction.
Qed.


Lemma update_product_no_fields_route product_id u d :
  all_absent_or_null u →
  PATCH_products product_id u (Some d) = (Return (<["updated" := VInt 0]> ∅), Some d)
  ∧ http_status (PATCH_products product_id u (Some d)).1 = 200.
Proof.
  intros H. unfold PATCH_products, with_body.
  rewrite (validate_absent u H), (update_product_no_fields product_id u d H).
  done.
Qed.

Lemma product_update_validate_acceptable u :
  is_Some (ProductUpdate.validate u) ↔ acceptable_product_update u.
Proof.
  unfold acceptable_product_update, ProductUpdate.validate, float_ge0.
  destruct u as [n s br ca ba pr tc es st ac]. simpl.
  destruct pr as [| |x]; [| |destruct (PrimFloat.leb 0 x) eqn:Ex]; simpl;
    (destruct st as [| |z]; [| |destruct (Z.leb_spec 0 z)]; simpl).
  all: split;
    [ try (by intros [? [=]]); intros _; split; intros ? [=]; subst; try done; lia
    | intros [Hx Hz]; try (by eauto);
      try (specialize (Hx _ eq_refl); congruence);
      try (specialize (Hz _ eq_refl); lia) ].
Qed.

Lemma product_update_validate_id u u' :
  ProductUpdate.validate u = Some u' → u' = u.
Proof.
  unfold ProductUpdate.validate. destruct (_ && _); [|done]. by intros [= <-].
Qed.

Lemma not_is_Some_None {A} (o : option A) : ¬ is_Some o → o = None.
Proof. destruct o; [intros H; destruct H; eauto|done]. Qed.

Lemma with_body_refused {B T A} (validate : B → option T) (handler : T → M A) body db :
  validate body = None →
  with_body validate handler body db
  = (Raise (RequestValidationError "Unprocessable Entity"), db).
Proof. intros H. unfold with_body. by rewrite H. Qed.

(** The route of the partial update: a body the model refuses does not reach
    the handler, every other body does. *)
Lemma PATCH_products_cases product_id u db :
  (acceptable_product_update u →
   PATCH_products product_id u db = update_product product_id u db)
  ∧ (¬ acceptable_product_update u →
     PATCH_products product_id u db
     = (Raise (RequestValidationError "Unprocessable Entity"), db)).
Proof.
  rewrite <- product_update_validate_acceptable. split.
  - intros [u' Hu]. unfold PATCH_products, with_body. rewrite Hu.
    by rewrite (product_update_validate_id u u' Hu).
  - intros H%not_is_Some_None. by apply with_body_refused.
Qed.

Lemma sample_new_price_given : ¬ all_absent_or_null Sample.new_price.
Proof. intros (_&_&_&_&_&[H|H]&_); discriminate H. Qed.

Lemma sample_new_price_acceptable : acceptable_product_update Sample.new_price.
Proof.
  split.
  - intros x [= <-]. reflexivity.
  - intros z [=].
Qed.


End UpdateProduct.

(** C10: whatever the identifier string, valid or not, a partial update of a
    product whose fields are all absent or null answers 200 with
    [{updated: 0}] and leaves the store as it was; the handle is there. *)
Theorem update_product_empty_body_any_id
    (product_id : string) (updates : ProductUpdate.t) (d : Database) :
  all_absent_or_null updates →
  PATCH_products product_id updates (Some d)
  = (Return (<["updated" := VInt 0]> ∅), Some d)
  ∧ http_status (PATCH_products product_id updates (Some d)).1 = 200.
Proof. apply update_product_no_fields_route. Qed.

Lemma update_product_empty_body_any_id_witness :
  all_absent_or_null Sample.no_fields
  ∧ PATCH_products "not-an-id" Sample.no_fields (Some Sample.d1)
    = (Return (<["updated" := VInt 0]> ∅), Some Sample.d1)
  ∧ http_status (PATCH_products "not-an-id" Sample.no_fields (Some Sample.d1)).1 = 200.
Proof.
  assert (H : all_absent_or_null Sample.no_fields)
    by (repeat split; left; reflexivity).
  split; [exact H|].
  exact (update_product_empty_body_any_id "not-an-id" Sample.no_fields Sample.d1 H).
Defined.




(** C2, as stated, fails: with a malformed identifier and a body without
    fields the call answers 200 and [{updated: 0}]. *)
Lemma update_product_malformed_id_empty_body_200 :
  ObjectId_of_str "not-an-id"
  = Raise (PyError "InvalidId"
             "'not-an-id' is not a valid ObjectId, it must be a 12-byte input or a 24-character hex string")
  ∧ PATCH_products "not-an-id" Sample.no_fields (Some Sample.d1)
    = (Return (<["updated" := VInt 0]> ∅), Some Sample.d1)
  ∧ http_status (PATCH_products "not-an-id" Sample.no_fields (Some Sample.d1)).1 = 200.
Proof.
  split; [reflexivity|].
  apply update_product_no_fields_route. repeat split; left; reflexivity.
Qed.

(** C2, as amended: with an identifier that [ObjectId] refuses, a partial
    update of a product whose body the model accepts and which gives some
    field a value fails with status 400 and leaves the store as it was; with
    no field given a value it answers [{updated: 0}] and leaves the store as
    it was; with no store handle a body the model accepts fails with status
    500; and a body the model refuses (a price or a stock below zero) is
    refused before the handler, whatever the handle, which stays as it
    was. *)
Theorem update_product_malformed_id
    (product_id : string) (updates : ProductUpdate.t) (d : Database) (e : exn) :
  ObjectId_of_str product_id = Raise e →
  (acceptable_product_update updates →
   ¬ all_absent_or_null updates →
   (∃ detail,
      PATCH_products product_id updates (Some d)
      = (Raise (HTTPException 400 detail), Some d))
   ∧ http_status (PATCH_products product_id updates (Some d)).1 = 400)
  ∧ (all_absent_or_null updates →
     PATCH_products product_id updates (Some d)
     = (Return (<["updated" := VInt 0]> ∅), Some d))
  ∧ (acceptable_product_update updates →
     PATCH_products product_id updates None
     = (Raise (HTTPException 500 "Database not available"), None)
     ∧ http_status (PATCH_products product_id updates None).1 = 500)
  ∧ (¬ acceptable_product_update updates →
     ∀ db, ∃ detail,
       PATCH_products product_id updates db = (Raise (RequestValidationError detail), db)).
Proof.
  intros E. split; [|split; [|split]].
  - intros Hacc Hne.
    rewrite (proj1 (PATCH_products_cases product_id updates (Some d)) Hacc).
    rewrite (update_product_bad_id product_id updates d e Hne E). eauto.
  - intros H. apply (update_product_no_fields_route product_id updates d H).
  - intros Hacc.
    rewrite (proj1 (PATCH_products_cases product_id updates None) Hacc).
    split; reflexivity.
  - intros Hno db.
    rewrite (proj2 (PATCH_products_cases product_id updates db) Hno). eauto.
Qed.

Lemma update_product_malformed_id_witness :
  (∃ detail,
     PATCH_products "not-an-id" Sample.new_price (Some Sample.d1)
     = (Raise (HTTPException 400 detail), Some Sample.d1))
  ∧ http_status (PATCH_products "not-an-id" Sample.new_price (Some Sample.d1)).1 = 400.
Proof.
  apply (proj1 (update_product_malformed_id "not-an-id" Sample.new_price Sample.d1 _ eq_refl)).
  - exact sample_new_price_acceptable.
  - exact sample_new_price_given.
Defined.

(** ** Partial update of a label *)

Section UpdateLabel.

(** What [update_label] does with the store there, case by case. *)
Lemma update_label_cases label_id (payload : dict) d :
  update_label label_id payload (Some d)
  = match ObjectId_of_str label_id with
    | Raise e => (Raise e, Some d)
    | Return oid =>
        if dict_ints_fit payload then
          match update_first (QId oid) payload (coll "label" d) with
          | Some (docs, m) =>
              if is_not_None (payload !! "_id") then
                (Raise (PyError "WriteError"
                          "Performing an update on the path '_id' would modify the immutable field '_id'"),
                 Some d)
              else
                (Return (<["updated" := VInt (if m then 1 else 0)]> ∅),
                 Some (set_coll "label" docs d))
          | None => (Return (<["updated" := VInt 0]> ∅), Some d)
          end
        else
          (Raise (PyError "OverflowError" "MongoDB can only handle up to 8-byte ints"),
           Some d)
    end.
Proof.
  unfold update_label, mbind, M_bind, bind, get_db, lift.
  destruct (ObjectId_of_str label_id) as [oid|e]; [|reflexivity].
  unfold on_db, update_one. cbn [query_ok negb].
  destruct (dict_ints_fit _); [|reflexivity]. cbn [negb].
  destruct (update_first _ _ _) as [[docs m]|]; [|reflexivity].
  destruct (is_not_None _); reflexivity.
Qed.






End UpdateLabel.

(** C3: with a malformed identifier the partial update of a label raises
    [InvalidId] past the handler, which the framework answers with 500, not
    with 400. *)
Theorem update_label_malformed_id_uncaught :
  PATCH_labels "not-an-id" Sample.battery_150 (Some Sample.d2)
  = (Raise (PyError "InvalidId"
              "'not-an-id' is not a valid ObjectId, it must be a 12-byte input or a 24-character hex string"),
     Some Sample.d2)
  ∧ http_status (PATCH_labels "not-an-id" Sample.battery_150 (Some Sample.d2)).1 = 500.
Proof. split; reflexivity. Qed.




(** ** The connectivity report *)

Section TestDatabase.

Lemma str_take_len n s : str_len (str_take n s) = Nat.min n (str_len s).
Proof.
  revert n. induction s as [|c s' IH]; intros n; cbn [str_take str_len].
  - by rewrite Nat.min_0_r.
  - destruct (is_continuation c) eqn:E.
    + cbn [str_len]. rewrite E, IH. lia.
    + destruct n as [|n']; [done|]. cbn [str_len]. rewrite E, IH. lia.
Qed.

Lemma str_take_prefix n s : ∃ rest, s = str_take n s +:+ rest.
Proof.
  revert n. induction s as [|c s' IH]; intros n; cbn [str_take].
  - by exists "".
  - destruct (is_continuation c).
    + destruct (IH n) as [rest E]. exists rest. exact (f_equal (String c) E).
    + destruct n as [|n']; [by exists (String c s')|].
      destruct (IH n') as [rest E]. exists rest. exact (f_equal (String c) E).
Qed.

End TestDatabase.

(** C9: whatever the store handle and whatever the probe of the collection
    names answers or raises, [/test] returns a response and raises nothing;
    when the probe raises, the [database] entry of the response carries the
    first 50 characters of the error's message: a prefix of the message, of
    50 characters or of all its characters when it has fewer. *)
Theorem test_database_never_raises
    (getenv : string → option string)
    (list_collection_names : Database → outcome (list string))
    (db : option Database) :
  ∃ response,
    test_database getenv list_collection_names db = (Return response, db)
    ∧ ∀ d e,
        db = Some d →
        list_collection_names d = Raise e →
        response !! "database"
        = Some (VStr ("⚠️  Connected but Error: " +:+ str_take 50 (exn_str e)))
        ∧ (str_len (str_take 50 (exn_str e)) ≤ 50)%nat
        ∧ str_len (str_take 50 (exn_str e)) = Nat.min 50 (str_len (exn_str e))
        ∧ ∃ rest, exn_str e = str_take 50 (exn_str e) +:+ rest.
Proof.
  destruct db as [d|].
  - destruct (list_collection_names d) as [names|e] eqn:E.
    + eexists. split.
      * unfold test_database, try_except, mbind, M_bind, bind, get_db, lift.
        rewrite E. reflexivity.
      * intros d' e' [= <-] E'. congruence.
    + eexists. split.
      * unfold test_database, try_except, mbind, M_bind, bind, get_db, lift.
        rewrite E. reflexivity.
      * intros d' e' [= <-] E'. rewrite E in E'. injection E' as <-.
        split; [by rewrite lookup_insert_eq|].
        split; [rewrite str_take_len; lia|].
        split; [apply str_take_len|apply str_take_prefix].
  - eexists. split; [reflexivity|]. intros d e [=].
Qed.

Lemma test_database_never_raises_witness :
  ∃ response,
    test_database (λ _, None)
      (λ _, Raise (PyError "ServerSelectionTimeoutError"
                     "serveur injoignable: connexion refusée par l'hôte distant après 30 s d'attente"))
      (Some Sample.d1)
    = (Return response, Some Sample.d1)
    ∧ response !! "database"
      = Some (VStr "⚠️  Connected but Error: serveur injoignable: connexion refusée par l'hôte ").
Proof.
  destruct (test_database_never_raises (λ _, None)
              (λ _, Raise (PyError "ServerSelectionTimeoutError"
                             "serveur injoignable: connexion refusée par l'hôte distant après 30 s d'attente"))
              (Some Sample.d1)) as (response & E & H).
  exists response. split; [exact E|].
  exact (proj1 (H Sample.d1 _ eq_refl eq_refl)).
Defined.

(** ** Bulk creation *)

Section BulkCreate.

Lemma create_document_available {T} `{BaseModel T} c (data : T) d :
  create_document c data (Some d)
  = (Return (ObjectId_str (ObjectId_of_counter (next_oid d))),
     Some (insert_one c (model_dump data) d).2).
Proof. reflexivity. Qed.

Lemma insert_each_available items : ∀ d inserted,
  ∃ d',
    insert_each items inserted (Some d)
    = (Return (inserted ++ batch_ids (next_oid d) items), Some d')
    ∧ coll "tobaccoproduct" d' = coll "tobaccoproduct" d ++ batch_docs (next_oid d) items
    ∧ (∀ c, c ≠ "tobaccoproduct" → coll c d' = coll c d)
    ∧ next_oid d' = (next_oid d + N.of_nat (length items))%N.
Proof.
  induction items as [|p rest IH]; intros d inserted.
  - exists d. cbn [insert_each batch_ids batch_docs length].
    rewrite !app_nil_r, N.add_0_r. done.
  - cbn [insert_each]. unfold mbind, M_bind, bind.
    rewrite create_document_available.
    destruct (IH (insert_one "tobaccoproduct" (model_dump p) d).2
                (inserted ++ [ObjectId_str (ObjectId_of_counter (next_oid d))]))
      as (d' & E & Hc & Ho & Hn).
    exists d'. rewrite E. cbn [batch_ids batch_docs length].
    rewrite Hc, Hn, coll_insert_one_eq. cbn [insert_one snd next_oid].
    rewrite <- !app_assoc. cbn [app]. repeat split.
    + intros c Hne. rewrite (Ho c Hne). by apply coll_insert_one_ne.
    + lia.
Qed.

Lemma batch_ids_length n items : length (batch_ids n items) = length items.
Proof. revert n. induction items; intros n; simpl; [done|]. by rewrite IHitems. Qed.

Lemma batch_docs_length n items : length (batch_docs n items) = length items.
Proof. revert n. induction items; intros n; simpl; [done|]. by rewrite IHitems. Qed.

Lemma bulk_validate raws :
  BulkProducts.validate (BulkProducts.Body (Given raws))
  = match mapM TobaccoProduct.validate raws with
    | Some items => Some (BulkProducts.Make items)
    | None => None
    end.
Proof.
  unfold BulkProducts.validate. simpl.
  by destruct (mapM TobaccoProduct.validate raws).
Qed.

End BulkCreate.

(** C4: a batch with an item the Product schema refuses fails as a whole
    before any insert, so the store stays as it was; a batch of N items that
    all pass is inserted item by item, in order, and the response gives the
    N identifiers assigned and the count N. *)
Theorem create_products_bulk_all_or_nothing
    (raws : list TobaccoProduct.body) (db : option Database) :
  (Exists (λ b, TobaccoProduct.validate b = None) raws →
   POST_products_bulk (BulkProducts.Body (Given raws)) db
   = (Raise (RequestValidationError "Unprocessable Entity"), db))
  ∧ (∀ items d,
       db = Some d →
       Forall2 (λ b p, TobaccoProduct.validate b = Some p) raws items →
       ∃ d',
         POST_products_bulk (BulkProducts.Body (Given raws)) db
         = (Return (<["inserted" := VList (VStr <$> batch_ids (next_oid d) items)]>
                    (<["count" := VInt (Z.of_nat (length raws))]> ∅)),
            Some d')
         ∧ length (batch_ids (next_oid d) items) = length raws
         ∧ coll "tobaccoproduct" d'
           = coll "tobaccoproduct" d ++ batch_docs (next_oid d) items
         ∧ length (batch_docs (next_oid d) items) = length raws
         ∧ ∀ c, c ≠ "tobaccoproduct" → coll c d' = coll c d).
Proof.
  split.
  - intros H%mapM_None. unfold POST_products_bulk, with_body.
    by rewrite bulk_validate, H.
  - intros items d -> H. pose proof (Forall2_length _ _ _ H) as Hlen.
    apply mapM_Some in H.
    destruct (insert_each_available items d []) as (d' & E & Hc & Ho & _).
    exists d'. unfold POST_products_bulk, with_body.
    rewrite bulk_validate, H.
    unfold create_products_bulk, mbind, M_bind, bind.
    cbn [BulkProducts.items]. rewrite E. cbn [app mret M_ret ret].
    rewrite batch_ids_length, batch_docs_length, Hlen. done.
Qed.

Lemma create_products_bulk_all_or_nothing_witness :
  (POST_products_bulk
     (BulkProducts.Body (Given [Sample.camel; Sample.negative_price])) (Some Sample.d1)
   = (Raise (RequestValidationError "Unprocessable Entity"), Some Sample.d1))
  ∧ ∃ items d',
      Forall2 (λ b p, TobaccoProduct.validate b = Some p)
        [Sample.camel; Sample.camel] items
      ∧ POST_products_bulk (BulkProducts.Body (Given [Sample.camel; Sample.camel]))
          (Some Sample.d1)
        = (Return (<["inserted" := VList (VStr <$> batch_ids (next_oid Sample.d1) items)]>
                   (<["count" := VInt (Z.of_nat (length [Sample.camel; Sample.camel]))]> ∅)),
           Some d')
      ∧ coll "tobaccoproduct" d'
        = coll "tobaccoproduct" Sample.d1 ++ batch_docs (next_oid Sample.d1) items.
Proof.
  split.
  - apply (proj1 (create_products_bulk_all_or_nothing
                    [Sample.camel; Sample.negative_price] (Some Sample.d1))).
    apply Exists_cons_tl, Exists_cons_hd. reflexivity.
  - assert (H : Forall2 (λ b p, TobaccoProduct.validate b = Some p)
                  [Sample.camel; Sample.camel]
                  (default [] (mapM TobaccoProduct.validate [Sample.camel; Sample.camel])))
      by (repeat constructor).
    destruct (proj2 (create_products_bulk_all_or_nothing
                       [Sample.camel; Sample.camel] (Some Sample.d1))
                _ Sample.d1 eq_refl H) as (d' & E & _ & Hc & _).
    eexists _, d'. split; [exact H|]. split; [exact E|exact Hc].
Defined.

(** ** Price updates *)

Section PriceUpdates.

Lemma set_price_apply v x :
  apply_set (<["price" := v]> ∅) x = Doc (doc_id x) (<["price" := v]> (doc_fields x)).
Proof.
  unfold apply_set. f_equal. by rewrite insert_empty, <- insert_union_singleton_l.
Qed.

Lemma not_has_sku_matches s l :
  Forall (λ y, ¬ has_sku s y) l → Forall (λ y, matches (QEqStr "sku" s) y = false) l.
Proof.
  intros H. eapply Forall_impl; [exact H|]. intros y Hy. simpl in Hy.
  destruct (matches (QEqStr "sku" s) y) eqn:Em; [|done].
  apply matches_QEqStr in Em. contradiction.
Qed.

Lemma price_dict_ints_fit (v : float) :
  dict_ints_fit (<["price" := VFloat v]> ∅) = true.
Proof.
  unfold dict_ints_fit. apply bool_decide_eq_true_2. intros k x Hk.
  apply lookup_insert_Some in Hk as [[_ <-]|[_ Hk]]; [reflexivity|].
  rewrite lookup_empty in Hk. discriminate Hk.
Qed.

(** When the truth test of the handle raises, the request fails after the
    record is inserted and no price is set. *)
Lemma create_price_update_truth_test_raises handle_bool u d e :
  (∀ h, handle_bool h = Raise e) →
  create_price_update handle_bool u (Some d)
  = (Raise e, Some (insert_one "priceupdate" (PriceUpdate.dump u) d).2).
Proof.
  intros Hb. unfold create_price_update, mbind, M_bind, bind.
  rewrite create_document_available. unfold db_truthy. by rewrite Hb.
Qed.

End PriceUpdates.

(** C1 fails on the code: the guard [if db] asks the store handle for its
    truth value, which the driver's [Database] refuses by raising. For every
    accepted price-update request with the store there, the record is
    inserted, then the guard raises [NotImplementedError], which the
    framework answers with 500: no identifier is returned and no product
    price is set. *)
Theorem create_price_update_fails_at_guard
    (body : PriceUpdate.body) (u : PriceUpdate.t) (d : Database) :
  PriceUpdate.validate body = Some u →
  ∃ msg d',
    POST_price_updates pymongo_bool body (Some d)
    = (Raise (PyError "NotImplementedError" msg), Some d')
    ∧ http_status (POST_price_updates pymongo_bool body (Some d)).1 = 500
    ∧ coll "priceupdate" d'
      = coll "priceupdate" d
        ++ [Doc (Some (ObjectId_of_counter (next_oid d))) (PriceUpdate.dump u)]
    ∧ coll "tobaccoproduct" d' = coll "tobaccoproduct" d.
Proof.
  intros Hv. eexists _, _. unfold POST_price_updates, with_body. rewrite Hv.
  rewrite (create_price_update_truth_test_raises pymongo_bool u d _ (λ _, eq_refl)).
  split; [reflexivity|]. split; [reflexivity|].
  split; [apply coll_insert_one_eq|by apply coll_insert_one_ne].
Qed.

Lemma create_price_update_fails_at_guard_witness :
  ∃ u msg d',
    PriceUpdate.validate Sample.reprice = Some u
    ∧ PriceUpdate.product_sku u = "MG20"
    ∧ has_sku "MG20" Sample.marlboro_doc
    ∧ POST_price_updates pymongo_bool Sample.reprice (Some Sample.d1)
      = (Raise (PyError "NotImplementedError" msg), Some d')
    ∧ http_status (POST_price_updates pymongo_bool Sample.reprice (Some Sample.d1)).1 = 500
    ∧ coll "tobaccoproduct" d' = [Sample.marlboro_doc].
Proof.
  eexists _.
  destruct (create_price_update_fails_at_guard Sample.reprice _ Sample.d1 eq_refl)
    as (msg & d' & E & Hs & _ & Hp).
  exists msg, d'. split; [reflexivity|]. split; [reflexivity|]. split; [reflexivity|].
  split; [exact E|]. split; [exact Hs|exact Hp].
Defined.

(** ** Creating a product, then listing by its sku *)

Section CreateThenList.





Lemma validate_fields b p :
  TobaccoProduct.validate b = Some p →
  TobaccoProduct.b_name b = Given (TobaccoProduct.name p)
  ∧ TobaccoProduct.b_sku b = Given (TobaccoProduct.sku p)
  ∧ TobaccoProduct.b_price b = Given (TobaccoProduct.price p)
  ∧ TobaccoProduct.brand p = optional None (TobaccoProduct.b_brand b)
  ∧ TobaccoProduct.category p = optional (Some "Tabacco") (TobaccoProduct.b_category b)
  ∧ TobaccoProduct.barcode p = optional None (TobaccoProduct.b_barcode b)
  ∧ TobaccoProduct.tax_class p = optional (Some "AAMS") (TobaccoProduct.b_tax_class b)
  ∧ TobaccoProduct.esl_id p = optional None (TobaccoProduct.b_esl_id b)
  ∧ TobaccoProduct.stock p = optional (Some 0) (TobaccoProduct.b_stock b)
  ∧ defaulted true (TobaccoProduct.b_active b) = Some (TobaccoProduct.active p)
  ∧ float_ge0 (TobaccoProduct.price p) = true
  ∧ opt_int_ge0 (TobaccoProduct.stock p) = true.
Proof.
  unfold TobaccoProduct.validate. destruct b as [n s br ca ba pr tc es st ac]. simpl.
  destruct n as [| |n]; try done. destruct s as [| |s]; try done.
  destruct pr as [| |pr]; try done. simpl.
  destruct (defaulted true ac) as [a|] eqn:Ea; [|done]. simpl.
  destruct (float_ge0 pr) eqn:Ep; [|done].
  destruct (opt_int_ge0 (optional (Some 0) st)) eqn:Es; [|done].
  intros [= <-]. simpl. repeat split; done.
Qed.

End CreateThenList.




(** ** What the models accept *)

Section Acceptance.

Lemma product_validate_acceptable b :
  is_Some (TobaccoProduct.validate b) ↔ acceptable_product b.
Proof.
  unfold acceptable_product. split.
  - intros [p Hp].
    destruct (validate_fields b p Hp) as (Hn & Hs & Hpr & _ & _ & _ & _ & _ & Hst & Hac & Hge & Hz).
    repeat split; eauto.
    + intros E. rewrite E in Hac. discriminate.
    + intros z E. rewrite Hst, E in Hz. simpl in Hz. lia.
  - destruct b as [n s br ca ba pr tc es st ac]. simpl.
    intros ([n' ->] & [s' ->] & (x & -> & Hx) & Hac & Hz).
    unfold TobaccoProduct.validate, float_ge0. simpl.
    destruct ac as [| |a]; [|done|]; simpl; rewrite Hx; simpl.
    all: destruct st as [| |z]; simpl; eauto.
    all: specialize (Hz z eq_refl); apply Z.leb_le in Hz; rewrite Hz; eauto.
Qed.

Lemma label_validate_acceptable b :
  is_Some (Label.validate b) ↔ acceptable_label b.
Proof.
  unfold acceptable_label, Label.validate. destruct b as [e s ba ls ps]. simpl.
  destruct e as [| |e]; simpl;
    try (split; [by intros [? [=]]|by intros ([? [=]] & _)]).
  destruct ba as [| |z]; simpl.
  - split; [intros _; split; [eauto|by intros ? [=]]|done].
  - split; [intros _; split; [eauto|by intros ? [=]]|done].
  - destruct (Z.leb_spec 0 z), (Z.leb_spec z 100); simpl.
    + split; [intros _; split; [eauto|intros ? [= <-]; lia]|done].
    + split; [by intros [? [=]]|intros (_ & Hz); specialize (Hz _ eq_refl); lia].
    + split; [by intros [? [=]]|intros (_ & Hz); specialize (Hz _ eq_refl); lia].
    + split; [by intros [? [=]]|intros (_ & Hz); specialize (Hz _ eq_refl); lia].
Qed.

Lemma price_update_validate_acceptable b :
  is_Some (PriceUpdate.validate b) ↔ acceptable_price_update b.
Proof.
  unfold acceptable_price_update, PriceUpdate.validate, float_ge0.
  destruct b as [s o n sc st no]. simpl.
  destruct s as [| |s]; simpl;
    try (split; [by intros [? [=]]|by intros ([? [=]] & _)]).
  destruct o as [| |o]; simpl;
    try (split; [by intros [? [=]]|by intros (_ & (? & [=] & _) & _)]).
  destruct n as [| |n]; simpl;
    try (split; [by intros [? [=]]|by intros (_ & _ & (? & [=] & _) & _)]).
  destruct st as [| |st]; simpl;
    try (split; [by intros [? [=]]|by intros (_ & _ & _ & ?)]).
  all: destruct (PrimFloat.leb 0 o) eqn:Eo, (PrimFloat.leb 0 n) eqn:En; simpl.
  all: split;
    [ try (by intros [? [=]]); intros _; repeat split; eauto; done
    | intros (_ & (? & [= <-] & ?) & (? & [= <-] & ?) & _); try congruence; eauto ].
Qed.

End Acceptance.

(** ** Requests the routes refuse or accept *)

(** X1: [POST /api/products] hands to the handler, as the validated
    product, exactly the bodies that give a name, a sku and a price that is
    not below zero, do not set [active] to null and give no stock below
    zero; every other body is refused before the handler runs, whatever the
    store handle, which stays as it was. *)
Theorem create_product_accepts_exactly (b : TobaccoProduct.body) :
  (acceptable_product b →
   ∃ p, TobaccoProduct.validate b = Some p
        ∧ ∀ db, POST_products b db = create_product p db)
  ∧ (¬ acceptable_product b →
     ∀ db, POST_products b db
           = (Raise (RequestValidationError "Unprocessable Entity"), db)).
Proof.
  rewrite <- product_validate_acceptable. split.
  - intros [p Hp]. exists p. split; [exact Hp|]. intros db.
    unfold POST_products, with_body. by rewrite Hp.
  - intros H%not_is_Some_None db. by apply with_body_refused.
Qed.

Lemma create_product_accepts_exactly_witness :
  ¬ acceptable_product Sample.negative_price
  ∧ POST_products Sample.negative_price None
    = (Raise (RequestValidationError "Unprocessable Entity"), None).
Proof.
  assert (H : ¬ acceptable_product Sample.negative_price).
  { intros (_ & _ & (x & [= <-] & Hx) & _). vm_compute in Hx. discriminate. }
  split; [exact H|].
  exact (proj2 (create_product_accepts_exactly Sample.negative_price) H None).
Defined.

(** X2: with the store there, [POST /api/labels] answers 200 exactly for the
    bodies that give an [esl_id] and no battery outside 0..100; every other
    body is refused with 422 and the store stays as it was. *)
Theorem create_label_accepts_exactly (b : Label.body) (d : Database) :
  (acceptable_label b ↔ http_status (POST_labels b (Some d)).1 = 200)
  ∧ (¬ acceptable_label b →
     ∀ db, POST_labels b db
           = (Raise (RequestValidationError "Unprocessable Entity"), db)).
Proof.
  rewrite <- label_validate_acceptable. split.
  - unfold POST_labels, with_body.
    destruct (Label.validate b) as [l|]; simpl.
    + split; [done|eauto].
    + split; [by intros [? [=]]|done].
  - intros H%not_is_Some_None db. by apply with_body_refused.
Qed.

Lemma create_label_accepts_exactly_witness :
  ¬ acceptable_label (Label.Body (Given "ESL-9") Unset (Given 150) Unset Unset)
  ∧ POST_labels (Label.Body (Given "ESL-9") Unset (Given 150) Unset Unset) (Some Sample.d2)
    = (Raise (RequestValidationError "Unprocessable Entity"), Some Sample.d2).
Proof.
  assert (H : ¬ acceptable_label (Label.Body (Given "ESL-9") Unset (Given 150) Unset Unset)).
  { intros (_ & Hz). specialize (Hz 150 eq_refl). lia. }
  split; [exact H|].
  exact (proj2 (create_label_accepts_exactly _ Sample.d2) H (Some Sample.d2)).
Defined.

(** X3: [POST /api/price-updates] refuses before the handler runs, and so
    before anything is written, every body that lacks [product_sku],
    [old_price] or [new_price], has one of the two prices below zero, or
    sets [status] to null; every other body reaches the handler as the
    validated record, whatever the truth test of the store handle. *)
Theorem create_price_update_accepts_exactly
    (handle_bool : Database → outcome bool) (b : PriceUpdate.body) :
  (acceptable_price_update b →
   ∃ u, PriceUpdate.validate b = Some u
        ∧ ∀ db, POST_price_updates handle_bool b db = create_price_update handle_bool u db)
  ∧ (¬ acceptable_price_update b →
     ∀ db, POST_price_updates handle_bool b db
           = (Raise (RequestValidationError "Unprocessable Entity"), db)).
Proof.
  rewrite <- price_update_validate_acceptable. split.
  - intros [u Hu]. exists u. split; [exact Hu|]. intros db.
    unfold POST_price_updates, with_body. by rewrite Hu.
  - intros H%not_is_Some_None db. by apply with_body_refused.
Qed.

Lemma create_price_update_accepts_exactly_witness :
  acceptable_price_update Sample.reprice
  ∧ ∃ u, PriceUpdate.validate Sample.reprice = Some u
         ∧ ∀ db, POST_price_updates pymongo_bool Sample.reprice db
                 = create_price_update pymongo_bool u db.
Proof.
  assert (H : acceptable_price_update Sample.reprice).
  { repeat split; eauto; try done; eexists; (split; [reflexivity|reflexivity]). }
  split; [exact H|].
  exact (proj1 (create_price_update_accepts_exactly pymongo_bool Sample.reprice) H).
Defined.

(** X4: [PATCH /api/products/{id}] refuses before the handler runs every
    body that gives a price or a stock below zero, whatever the identifier
    and even with no store handle, and writes nothing; every other body
    reaches the handler. *)
Theorem update_product_body_checked_first
    (product_id : string) (u : ProductUpdate.t) (db : option Database) :
  (¬ acceptable_product_update u →
   PATCH_products product_id u db
   = (Raise (RequestValidationError "Unprocessable Entity"), db))
  ∧ (acceptable_product_update u →
     PATCH_products product_id u db = update_product product_id u db).
Proof.
  split; [apply (proj2 (PATCH_products_cases product_id u db))
         |apply (proj1 (PATCH_products_cases product_id u db))].
Qed.

Lemma update_product_body_checked_first_witness :
  PATCH_products "not-an-id" Sample.negative_stock None
  = (Raise (RequestValidationError "Unprocessable Entity"), None).
Proof.
  apply (proj1 (update_product_body_checked_first "not-an-id" _ None)).
  intros (_ & Hz). specialize (Hz (-3) eq_refl). lia.
Defined.

(** ** Serialising records and listing them *)

Section Listing.

Lemma serialize_with_id oid f :
  _serialize (Doc (Some oid) f) = Doc None (<["id" := VStr (ObjectId_str oid)]> f).
Proof. reflexivity. Qed.

Lemma serialize_without_id f : _serialize (Doc None f) = Doc None f.
Proof. unfold _serialize. by destruct (negb _). Qed.

Lemma serialize_no_id doc : doc_id (_serialize doc) = None.
Proof.
  destruct doc as [[oid|] f]; [by rewrite serialize_with_id|by rewrite serialize_without_id].
Qed.

Lemma get_documents_read_only c q limit db : (get_documents c q limit db).2 = db.
Proof.
  unfold get_documents. destruct db as [d|]; [|done]. by destruct (find c q d).
Qed.

Lemma get_documents_capped c q limit db docs :
  (get_documents c q limit db).1 = Return docs → (length docs ≤ Z.to_nat limit)%nat.
Proof.
  unfold get_documents. destruct db as [d|]; [|done].
  destruct (find c q d) as [l|]; [|done]. simpl. intros [= <-].
  rewrite length_take. lia.
Qed.

Lemma listing_shape c q limit db :
  let r := (docs ← get_documents c q limit; mret (_serialize <$> docs)) db in
  r.2 = db
  ∧ ∀ docs, r.1 = Return docs →
            Forall (λ x, doc_id x = None) docs ∧ (length docs ≤ Z.to_nat limit)%nat.
Proof.
  simpl. unfold mbind, M_bind, bind.
  pose proof (get_documents_read_only c q limit db) as Hro.
  pose proof (get_documents_capped c q limit db) as Hcap.
  destruct (get_documents c q limit db) as [[l|e] db']; simpl in *; subst.
  - split; [done|]. intros docs [= <-]. split.
    + apply Forall_fmap, Forall_forall. intros x _. apply serialize_no_id.
    + rewrite length_fmap. by apply Hcap.
  - split; [done|]. intros docs [=].
Qed.

Lemma listing_answers c q limit d :
  query_ok q = true →
  ∃ docs,
    (docs ← get_documents c q limit; mret (_serialize <$> docs)) (Some d)
    = (Return docs, Some d)
    ∧ Forall (λ x, doc_id x = None) docs
    ∧ (length docs ≤ Z.to_nat limit)%nat.
Proof.
  intros Hq. destruct (listing_shape c q limit (Some d)) as [_ H]. cbn zeta in H.
  revert H. unfold mbind, M_bind, bind, get_documents, find. rewrite Hq.
  intros H. eexists. split; [reflexivity|]. by apply H.
Qed.

Lemma products_filter_ok (q : option string) :
  (∀ q', q = Some q' → printable_text q' = true ∧ plain q' = true) →
  query_ok
    match q with
    | Some q' =>
        if str_truthy q' then
          QOr [QRegex "name" q' "i"; QRegex "brand" q' "i"; QRegex "sku" q' "i"]
        else QAll
    | None => QAll
    end = true.
Proof.
  intros H. destruct q as [q'|]; [|done].
  destruct (str_truthy q'); [|done].
  apply products_query_ok. by destruct (H q' eq_refl).
Qed.

End Listing.

(** X5: [_serialize] returns a record without [_id] as it is; a record with
    [_id] loses it and gets the identifier as a string under [id], over
    whatever [id] held before, its other keys unchanged; serialising twice is
    serialising once. *)
Theorem serialize_moves_id (doc : document) :
  (doc_id doc = None → _serialize doc = doc)
  ∧ (∀ oid, doc_id doc = Some oid →
       doc_id (_serialize doc) = None
       ∧ doc_fields (_serialize doc) !! "id" = Some (VStr (ObjectId_str oid))
       ∧ ∀ k, k ≠ "id" → doc_fields (_serialize doc) !! k = doc_fields doc !! k)
  ∧ _serialize (_serialize doc) = _serialize doc.
Proof.
  destruct doc as [[oid|] f]; cbn [doc_id doc_fields].
  - split; [done|]. split.
    + intros ? [= <-]. rewrite serialize_with_id. cbn [doc_id doc_fields].
      split; [done|]. split; [by rewrite lookup_insert_eq|].
      intros k Hk. by rewrite lookup_insert_ne.
    + by rewrite serialize_with_id, serialize_without_id.
  - split; [intros _; apply serialize_without_id|]. split; [done|].
    by rewrite !serialize_without_id.
Qed.

Lemma serialize_moves_id_witness :
  doc_id (_serialize Sample.marlboro_doc) = None
  ∧ doc_fields (_serialize Sample.marlboro_doc) !! "id"
    = Some (VStr (ObjectId_str (OID "000000000000000000000001")))
  ∧ ∀ k, k ≠ "id" →
         doc_fields (_serialize Sample.marlboro_doc) !! k
         = doc_fields Sample.marlboro_doc !! k.
Proof.
  exact (proj1 (proj2 (serialize_moves_id Sample.marlboro_doc))
           (OID "000000000000000000000001") eq_refl).
Defined.

(** X6: the three listings never write: the store handle is the same after
    the call as before it, whatever the query string and the limit. With the
    store there and a limit above zero, the label listing, the price-update
    listing, and the product listing for no query string or one of printable
    ASCII characters without pattern characters, answer with records that
    carry no [_id], at most [limit] of them. *)
Theorem listings_read_only (q : option string) (limit : Z) (db : option Database) :
  ((list_products q limit db).2 = db
   ∧ (list_labels limit db).2 = db
   ∧ (list_price_updates limit db).2 = db)
  ∧ ∀ d,
      db = Some d →
      0 < limit →
      ((∀ q', q = Some q' → printable_text q' = true ∧ plain q' = true) →
       ∃ docs,
         list_products q limit db = (Return docs, db)
         ∧ Forall (λ x, doc_id x = None) docs
         ∧ (length docs ≤ Z.to_nat limit)%nat)
      ∧ (∃ docs,
           list_labels limit db = (Return docs, db)
           ∧ Forall (λ x, doc_id x = None) docs
           ∧ (length docs ≤ Z.to_nat limit)%nat)
      ∧ (∃ docs,
           list_price_updates limit db = (Return docs, db)
           ∧ Forall (λ x, doc_id x = None) docs
           ∧ (length docs ≤ Z.to_nat limit)%nat).
Proof.
  split.
  - split; [|split].
    + unfold list_products. apply listing_shape.
    + apply (listing_shape "label" QAll limit db).
    + apply (listing_shape "priceupdate" QAll limit db).
  - intros d -> _. split; [|split].
    + intros Hq. unfold list_products. apply listing_answers.
      by apply products_filter_ok.
    + by apply (listing_answers "label" QAll limit d).
    + by apply (listing_answers "priceupdate" QAll limit d).
Qed.

Lemma listings_read_only_witness :
  (list_products (Some "^MG") 1 (Some Sample.d2)).2 = Some Sample.d2
  ∧ (∃ docs,
       list_products (Some "gold") 1 (Some Sample.d2) = (Return docs, Some Sample.d2)
       ∧ Forall (λ x, doc_id x = None) docs
       ∧ (length docs ≤ Z.to_nat 1)%nat)
  ∧ (list_price_updates 1 None).2 = None.
Proof.
  split; [|split].
  - exact (proj1 (proj1 (listings_read_only (Some "^MG") 1 (Some Sample.d2)))).
  - apply (proj1 (proj2 (listings_read_only (Some "gold") 1 (Some Sample.d2))
                    Sample.d2 eq_refl eq_refl)).
    intros q' [= <-]. split; reflexivity.
  - exact (proj2 (proj2 (proj1 (listings_read_only None 1 None)))).
Defined.

(** ** Updating and deleting by identifier *)

Section ByIdentifier.

Lemma ObjectId_of_str_raises s e :
  ObjectId_of_str s = Raise e → ∃ msg, e = PyError "InvalidId" msg.
Proof.
  unfold ObjectId_of_str.
  destruct (str_len s =? 24)%nat; [destruct (fromhex s); [done|]|]; intros [= <-]; eauto.
Qed.

Lemma update_first_ids q set l l' m :
  update_first q set l = Some (l', m) → doc_id <$> l' = doc_id <$> l.
Proof.
  revert l' m. induction l as [|x r IH]; intros l' m; simpl; [done|].
  destruct (matches q x).
  - by intros [= <- _].
  - destruct (update_first q set r) as [[r' m']|]; [|done].
    intros [= <- _]. rewrite !fmap_cons. f_equal. by eapply IH.
Qed.

Lemma delete_first_split q l1 x l2 :
  Forall (λ y, matches q y = false) l1 →
  matches q x = true →
  delete_first q (l1 ++ x :: l2) = Some (l1 ++ l2).
Proof.
  intros Hl1 Hx. induction Hl1 as [|y l1 Hy _ IH]; simpl.
  - by rewrite Hx.
  - by rewrite Hy, IH.
Qed.

Lemma delete_first_none q l :
  Forall (λ y, matches q y = false) l → delete_first q l = None.
Proof.
  induction 1 as [|y l Hy _ IH]; simpl; [done|]. by rewrite Hy, IH.
Qed.

(** What [delete_product] does with the store there, case by case. *)
Lemma delete_product_cases product_id d :
  delete_product product_id (Some d)
  = match ObjectId_of_str product_id with
    | Raise e => (Raise e, Some d)
    | Return oid =>
        match delete_first (QId oid) (coll "tobaccoproduct" d) with
        | Some docs =>
            (Return (<["deleted" := VInt 1]> ∅), Some (set_coll "tobaccoproduct" docs d))
        | None => (Return (<["deleted" := VInt 0]> ∅), Some d)
        end
    end.
Proof.
  unfold delete_product, mbind, M_bind, bind, get_db, lift.
  destruct (ObjectId_of_str product_id) as [oid|e]; [|reflexivity].
  unfold on_db, delete_one. cbn [query_ok negb].
  destruct (delete_first _ _) as [docs|]; reflexivity.
Qed.

Lemma set_coll_frame c docs d :
  doc_id <$> docs = ids_of c d →
  next_oid (set_coll c docs d) = next_oid d
  ∧ (∀ c', c' ≠ c → coll c' (set_coll c docs d) = coll c' d)
  ∧ ids_of c (set_coll c docs d) = ids_of c d.
Proof.
  intros H. split; [done|]. split.
  - intros c' Hne. by apply coll_set_coll_ne.
  - unfold ids_of. by rewrite coll_set_coll_eq.
Qed.

End ByIdentifier.

(** X7: with the store there, a partial update of a product either answers
    [{updated: 0}] or [{updated: 1}], or fails with 400 and leaves the store
    as it was; no other exception leaves the handler. *)
Theorem update_product_answers (product_id : string) (u : ProductUpdate.t) (d : Database) :
  (∃ n, (update_product product_id u (Some d)).1 = Return (<["updated" := VInt n]> ∅)
        ∧ (n = 0 ∨ n = 1))
  ∨ (∃ detail, update_product product_id u (Some d)
               = (Raise (HTTPException 400 detail), Some d)).
Proof.
  rewrite update_product_cases. cbn zeta.
  destruct (bool_decide _); [left; eauto|].
  destruct (ObjectId_of_str product_id) as [oid|e]; [|right; eauto].
  destruct (dict_ints_fit _); [|right; eauto].
  destruct (update_first _ _ _) as [[docs [|]]|]; left; eauto.
Qed.

(** X8: whatever its arguments, a partial update of a product adds no
    record, removes none and changes no identifier: the identifiers of the
    products are the same, in the same order, the other collections and the
    identifier counter are untouched. *)
Theorem update_product_keeps_records
    (product_id : string) (u : ProductUpdate.t) (d : Database) :
  ∃ d',
    (update_product product_id u (Some d)).2 = Some d'
    ∧ next_oid d' = next_oid d
    ∧ (∀ c, c ≠ "tobaccoproduct" → coll c d' = coll c d)
    ∧ ids_of "tobaccoproduct" d' = ids_of "tobaccoproduct" d.
Proof.
  rewrite update_product_cases. cbn zeta.
  destruct (bool_decide _); [by exists d|].
  destruct (ObjectId_of_str product_id) as [oid|e]; [|by exists d].
  destruct (dict_ints_fit _); [|by exists d].
  destruct (update_first _ _ _) as [[docs m]|] eqn:E; [|by exists d].
  eexists. split; [reflexivity|]. apply set_coll_frame.
  by apply update_first_ids in E.
Qed.



(** X10: deleting a product by the identifier of a stored product answers
    [{deleted: 1}] and removes the first record with that identifier, and
    nothing else. *)
Theorem delete_product_removes_it
    (product_id : string) (oid : ObjectId) (d : Database)
    (l1 : list document) (x : document) (l2 : list document) :
  ObjectId_of_str product_id = Return oid →
  coll "tobaccoproduct" d = l1 ++ x :: l2 →
  has_id oid x →
  Forall (λ y, ¬ has_id oid y) l1 →
  delete_product product_id (Some d)
  = (Return (<["deleted" := VInt 1]> ∅), Some (set_coll "tobaccoproduct" (l1 ++ l2) d)).
Proof.
  intros E Hc Hx Hl1. rewrite delete_product_cases, E, Hc.
  rewrite (delete_first_split (QId oid) l1 x l2);
    [done|by apply not_has_id_matches|by apply matches_QId].
Qed.

Lemma delete_product_removes_it_witness :
  delete_product "000000000000000000000001" (Some Sample.d1)
  = (Return (<["deleted" := VInt 1]> ∅),
     Some (set_coll "tobaccoproduct" ([] ++ []) Sample.d1)).
Proof.
  apply (delete_product_removes_it "000000000000000000000001"
           (OID "000000000000000000000001") Sample.d1 [] Sample.marlboro_doc []);
    [reflexivity|reflexivity|reflexivity|constructor].
Defined.

(** X11: deleting a product by a well-formed identifier that no stored
    product has answers [{deleted: 0}], raises nothing and writes nothing. *)
Theorem delete_product_unknown_id (product_id : string) (oid : ObjectId) (d : Database) :
  ObjectId_of_str product_id = Return oid →
  Forall (λ y, ¬ has_id oid y) (coll "tobaccoproduct" d) →
  delete_product product_id (Some d) = (Return (<["deleted" := VInt 0]> ∅), Some d).
Proof.
  intros E H. rewrite delete_product_cases, E.
  by rewrite (delete_first_none _ _ (not_has_id_matches _ _ H)).
Qed.

Lemma delete_product_unknown_id_witness :
  delete_product "0000000000000000000000ff" (Some Sample.d1)
  = (Return (<["deleted" := VInt 0]> ∅), Some Sample.d1).
Proof.
  apply (delete_product_unknown_id "0000000000000000000000ff"
           (OID "0000000000000000000000ff")); [reflexivity|].
  repeat constructor. intros [=].
Defined.

(** X12: deleting a product with an identifier that [ObjectId] refuses is
    not caught: the [InvalidId] leaves the handler, which the framework
    answers with 500, and nothing is written; with no store handle the
    handler itself fails with 500. *)
Theorem delete_product_malformed_id (product_id : string) (e : exn) (d : Database) :
  ObjectId_of_str product_id = Raise e →
  (∃ msg, e = PyError "InvalidId" msg)
  ∧ delete_product product_id (Some d) = (Raise e, Some d)
  ∧ http_status (delete_product product_id (Some d)).1 = 500
  ∧ delete_product product_id None
    = (Raise (HTTPException 500 "Database not available"), None).
Proof.
  intros E. rewrite delete_product_cases, E.
  destruct (ObjectId_of_str_raises _ _ E) as [msg ->]. eauto.
Qed.

Lemma delete_product_malformed_id_witness :
  http_status (delete_product "not-an-id" (Some Sample.d1)).1 = 500.
Proof.
  exact (proj1 (proj2 (proj2 (delete_product_malformed_id "not-an-id" _ Sample.d1 eq_refl)))).
Defined.



(** X14: whatever its arguments, a partial update of a label adds no record,
    removes none and changes no identifier, and touches no other
    collection. *)
Theorem update_label_keeps_records (label_id : string) (payload : dict) (d : Database) :
  ∃ d',
    (update_label label_id payload (Some d)).2 = Some d'
    ∧ next_oid d' = next_oid d
    ∧ (∀ c, c ≠ "label" → coll c d' = coll c d)
    ∧ ids_of "label" d' = ids_of "label" d.
Proof.
  rewrite update_label_cases.
  destruct (ObjectId_of_str label_id) as [oid|e]; [|by exists d].
  destruct (dict_ints_fit _); [|by exists d].
  destruct (update_first _ _ _) as [[docs m]|] eqn:E; [|by exists d].
  destruct (is_not_None _); [by exists d|].
  eexists. split; [reflexivity|]. apply set_coll_frame.
  by apply update_first_ids in E.
Qed.

(** ** Identifiers go out and come back *)

Section Identifiers.

Lemma hex_digit_ok m :
  (m < 16)%N → is_hex (hex_digit m) = true ∧ lower_ascii (hex_digit m) = hex_digit m.
Proof.
  intros H.
  assert (m = 0 ∨ m = 1 ∨ m = 2 ∨ m = 3 ∨ m = 4 ∨ m = 5 ∨ m = 6 ∨ m = 7 ∨ m = 8
          ∨ m = 9 ∨ m = 10 ∨ m = 11 ∨ m = 12 ∨ m = 13 ∨ m = 14 ∨ m = 15)%N
    as Hm by lia.
  repeat (destruct Hm as [-> | Hm]; [split; reflexivity|]).
  subst. split; reflexivity.
Qed.

Lemma hex_digits_length k n acc :
  String.length (hex_digits k n acc) = (k + String.length acc)%nat.
Proof.
  revert n acc. induction k as [|k IH]; intros n acc; simpl; [done|].
  rewrite IH. simpl. lia.
Qed.

Lemma hex_digits_all_hex k n acc :
  all_hex acc = true → all_hex (hex_digits k n acc) = true.
Proof.
  revert n acc. induction k as [|k IH]; intros n acc Hacc; simpl; [done|].
  apply IH. simpl. rewrite Hacc, andb_true_r.
  apply hex_digit_ok, N.mod_upper_bound. lia.
Qed.

Lemma hex_digits_lower k n acc :
  lower acc = acc → lower (hex_digits k n acc) = hex_digits k n acc.
Proof.
  revert n acc. induction k as [|k IH]; intros n acc Hacc; simpl; [done|].
  apply IH. simpl. rewrite Hacc. f_equal.
  apply hex_digit_ok, N.mod_upper_bound. lia.
Qed.

Lemma is_hex_char c :
  is_hex c = true → is_space c = false ∧ is_continuation c = false.
Proof.
  unfold is_hex, is_space, is_continuation. cbn zeta. intros H.
  split; apply not_true_iff_false; intros H'; revert H H';
    rewrite ?orb_true_iff, ?andb_true_iff, ?N.leb_le, ?N.ltb_lt, ?N.eqb_eq; lia.
Qed.

Lemma all_hex_len s : all_hex s = true → str_len s = String.length s.
Proof.
  induction s as [|c r IH]; [done|]. cbn [all_hex str_len String.length].
  intros [Hc Hr]%andb_true_iff. destruct (is_hex_char c Hc) as [_ ->].
  by rewrite (IH Hr).
Qed.

(** Lower-case hexadecimal digits in pairs read as themselves. *)
Lemma fromhex_hex n : ∀ s,
  String.length s = (2 * n)%nat → all_hex s = true → lower s = s → fromhex s = Some s.
Proof.
  induction n as [|n IH]; intros s Hl Hh Hlow.
  - by destruct s.
  - destruct s as [|c [|c' r]]; simpl in Hl; try lia.
    cbn [all_hex] in Hh. apply andb_true_iff in Hh as [Hc Hh].
    apply andb_true_iff in Hh as [Hc' Hr].
    cbn [lower] in Hlow. injection Hlow as Ec Ec' Er.
    cbn [fromhex]. destruct (is_hex_char c Hc) as [-> _].
    rewrite Hc, Hc', (IH r) by (done || lia). by rewrite Ec, Ec'.
Qed.

(** The identifier the store assigns reads back from its string. *)
Lemma counter_id_parses n :
  ObjectId_of_str (ObjectId_str (ObjectId_of_counter n)) = Return (ObjectId_of_counter n).
Proof.
  unfold ObjectId_of_counter, ObjectId_str, ObjectId_of_str.
  rewrite all_hex_len, hex_digits_length by (by apply hex_digits_all_hex).
  rewrite (fromhex_hex 12);
    [reflexivity|by rewrite hex_digits_length|by apply hex_digits_all_hex
    |by apply hex_digits_lower].
Qed.

(** White space between the pairs of digits is skipped, as [bytes.fromhex]
    does: such a string of 24 characters is an identifier of fewer bytes. *)
Lemma spaced_id_parses :
  ObjectId_of_str Sample.spaced_id = Return (OID "0000000000000000000001").
Proof. reflexivity. Qed.

Lemma filter_QAll l : List.filter (matches QAll) l = l.
Proof.
  induction l as [|x l IH]; [done|].
  change (List.filter (matches QAll) (x :: l)) with (x :: List.filter (matches QAll) l).
  by rewrite IH.
Qed.

End Identifiers.

(** X15: the identifier that creating a product returns addresses that
    product: deleting by it, when no older product has the same identifier,
    answers [{deleted: 1}] and leaves every collection as it was before the
    product was created. *)
Theorem create_then_delete_product (p : TobaccoProduct.t) (d : Database) :
  Forall (λ y, ¬ has_id (ObjectId_of_counter (next_oid d)) y) (coll "tobaccoproduct" d) →
  ∃ i d1 d2,
    create_product p (Some d) = (Return (id_response i), Some d1)
    ∧ delete_product i (Some d1) = (Return (<["deleted" := VInt 1]> ∅), Some d2)
    ∧ ∀ c, coll c d2 = coll c d.
Proof.
  intros Hfresh.
  exists (ObjectId_str (ObjectId_of_counter (next_oid d))),
         (insert_one "tobaccoproduct" (TobaccoProduct.dump p) d).2.
  eexists. split; [|split].
  - unfold create_product, mbind, M_bind, bind. by rewrite create_document_available.
  - rewrite delete_product_cases, counter_id_parses, coll_insert_one_eq.
    rewrite (delete_first_split _ (coll "tobaccoproduct" d) _ []);
      [reflexivity|by apply not_has_id_matches|by apply matches_QId].
  - intros c. destruct (decide (c = "tobaccoproduct")) as [->|Hne].
    + by rewrite coll_set_coll_eq, app_nil_r.
    + rewrite coll_set_coll_ne by done. by apply coll_insert_one_ne.
Qed.

Lemma create_then_delete_product_witness :
  ∃ i d1 d2,
    create_product (TobaccoProduct.Make "Camel Blue 20" "CB20" None None None 5.25%float
                      None None (Some 12) true) (Some Sample.d1)
    = (Return (id_response i), Some d1)
    ∧ delete_product i (Some d1) = (Return (<["deleted" := VInt 1]> ∅), Some d2)
    ∧ ∀ c, coll c d2 = coll c Sample.d1.
Proof.
  apply create_then_delete_product. repeat constructor. intros [=].
Defined.

(** X16: a label just created is the last record of the label listing, with
    the fields of the model and the returned identifier under [id], when the
    limit is above the number of labels stored before. *)
Theorem create_label_then_list (l : Label.t) (d : Database) (limit : Z) :
  (length (coll "label" d) < Z.to_nat limit)%nat →
  ∃ i d',
    create_label l (Some d) = (Return (id_response i), Some d')
    ∧ list_labels limit (Some d')
      = (Return ((_serialize <$> coll "label" d)
                 ++ [Doc None (<["id" := VStr i]> (Label.dump l))]),
         Some d').
Proof.
  intros Hlimit.
  exists (ObjectId_str (ObjectId_of_counter (next_oid d))),
         (insert_one "label" (Label.dump l) d).2.
  split.
  - unfold create_label, mbind, M_bind, bind. by rewrite create_document_available.
  - unfold list_labels, mbind, M_bind, bind, get_documents, find.
    cbn [query_ok]. rewrite filter_QAll, coll_insert_one_eq.
    rewrite take_ge by (rewrite length_app; simpl; lia).
    cbn [mret M_ret ret]. by rewrite fmap_app.
Qed.

Lemma create_label_then_list_witness :
  ∃ i d',
    create_label (Label.Make "ESL-9" (Some "idle") None None None) (Some Sample.d2)
    = (Return (id_response i), Some d')
    ∧ list_labels 100 (Some d')
      = (Return ((_serialize <$> coll "label" Sample.d2)
                 ++ [Doc None (<["id" := VStr i]>
                                 (Label.dump (Label.Make "ESL-9" (Some "idle") None None None)))]),
         Some d').
Proof.
  apply create_label_then_list. vm_compute. lia.
Defined.

(** ** Batches *)

Section Batches.

Lemma insert_each_after_batch items : ∀ d inserted,
  insert_each items inserted (Some d)
  = (Return (inserted ++ batch_ids (next_oid d) items), Some (after_batch items d)).
Proof.
  induction items as [|p rest IH]; intros d inserted.
  - cbn [insert_each batch_ids after_batch]. by rewrite app_nil_r.
  - cbn [insert_each after_batch batch_ids]. unfold mbind, M_bind, bind.
    rewrite create_document_available, IH. cbn [model_dump TobaccoProduct_model].
    cbn [insert_one snd next_oid]. by rewrite <- app_assoc.
Qed.

Lemma post_each_after_batch items : ∀ d,
  post_each items (Some d)
  = (Return (id_response <$> batch_ids (next_oid d) items), Some (after_batch items d)).
Proof.
  induction items as [|p rest IH]; intros d; [reflexivity|].
  cbn [post_each after_batch batch_ids]. unfold mbind, M_bind, bind, create_product.
  unfold mbind, M_bind, bind.
  rewrite create_document_available. cbn [mret M_ret ret].
  cbn [model_dump TobaccoProduct_model]. rewrite IH. reflexivity.
Qed.

End Batches.

(** X17: an empty batch answers [{inserted: [], count: 0}] and writes
    nothing, with or without a store handle: the loop has nothing to insert;
    a body without [items], or with [items] null, is refused with 422. *)
Theorem create_products_bulk_empty (db : option Database) :
  POST_products_bulk (BulkProducts.Body (Given [])) db
  = (Return (<["inserted" := VList []]> (<["count" := VInt 0]> ∅)), db)
  ∧ POST_products_bulk (BulkProducts.Body Unset) db
    = (Raise (RequestValidationError "Unprocessable Entity"), db)
  ∧ POST_products_bulk (BulkProducts.Body Null) db
    = (Raise (RequestValidationError "Unprocessable Entity"), db).
Proof. repeat split; reflexivity. Qed.

(** X18: with the store there, a batch does what creating its items one at a
    time does: the same identifiers in the same order and the same store in
    the end; [count] is the number of items. *)
Theorem create_products_bulk_is_repeated_create
    (items : list TobaccoProduct.t) (d : Database) :
  ∃ ids d',
    create_products_bulk (BulkProducts.Make items) (Some d)
    = (Return (<["inserted" := VList (VStr <$> ids)]>
               (<["count" := VInt (Z.of_nat (length items))]> ∅)),
       Some d')
    ∧ post_each items (Some d) = (Return (id_response <$> ids), Some d').
Proof.
  exists (batch_ids (next_oid d) items), (after_batch items d). split.
  - unfold create_products_bulk, mbind, M_bind, bind. cbn [BulkProducts.items].
    rewrite insert_each_after_batch. cbn [app mret M_ret ret].
    by rewrite batch_ids_length.
  - apply post_each_after_batch.
Qed.

(** ** The connectivity report, in full *)

(** X19: the report of [/test] always says the backend runs and lists at
    most ten collection names; without a store handle it says so and reports
    no connection; with a handle whose probe answers, it lists the first ten
    names the probe gave and reports a working connection. *)
Theorem test_database_report
    (getenv : string → option string)
    (list_collection_names : Database → outcome (list string))
    (db : option Database) :
  ∃ response names,
    test_database getenv list_collection_names db = (Return response, db)
    ∧ response !! "backend" = Some (VStr "✅ Running")
    ∧ response !! "collections" = Some (VList (VStr <$> names))
    ∧ (length names ≤ 10)%nat
    ∧ (db = None →
       response !! "database" = Some (VStr "⚠️  Available but not initialized")
       ∧ response !! "connection_status" = Some (VStr "Not Connected"))
    ∧ (∀ d all_names,
         db = Some d →
         list_collection_names d = Return all_names →
         names = take 10 all_names
         ∧ response !! "database" = Some (VStr "✅ Connected & Working")
         ∧ response !! "connection_status" = Some (VStr "Connected")).
Proof.
  destruct db as [d|].
  - destruct (list_collection_names d) as [all_names|e] eqn:E.
    + eexists _, (take 10 all_names). split.
      * unfold test_database, try_except, mbind, M_bind, bind, get_db, lift.
        rewrite E. reflexivity.
      * split; [done|]. split; [by rewrite lookup_insert_eq|].
        split; [rewrite length_take; lia|]. split; [done|].
        intros d' names' [= <-] E'. rewrite E in E'. injection E' as <-. done.
    + eexists _, []. split.
      * unfold test_database, try_except, mbind, M_bind, bind, get_db, lift.
        rewrite E. reflexivity.
      * split; [done|]. split; [done|]. split; [simpl; lia|]. split; [done|].
        intros d' names' [= <-] E'. congruence.
  - eexists _, []. split; [reflexivity|].
    split; [done|]. split; [done|]. split; [simpl; lia|]. split; [done|].
    intros d names [=].
Qed.

Lemma test_database_report_witness :
  ∃ response names,
    test_database (λ _, Some "mongodb://localhost") (λ _, Return ["label"; "tobaccoproduct"])
      (Some Sample.d2)
    = (Return response, Some Sample.d2)
    ∧ names = take 10 ["label"; "tobaccoproduct"]
    ∧ response !! "database" = Some (VStr "✅ Connected & Working").
Proof.
  destruct (test_database_report (λ _, Some "mongodb://localhost")
              (λ _, Return ["label"; "tobaccoproduct"]) (Some Sample.d2))
    as (response & names & E & _ & _ & _ & _ & H).
  exists response, names. split; [exact E|].
  destruct (H Sample.d2 _ eq_refl eq_refl) as (Hn & Hd & _). split; [exact Hn|exact Hd].
Defined.

(** ** Letter case in the product search *)

Section LetterCase.

Lemma q_occurs_lower q q' x : lower q = lower q' → q_occurs q x ↔ q_occurs q' x.
Proof.
  intros E. unfold q_occurs, field_has, ci_substring. by rewrite E.
Qed.

Lemma bool_eq_iff (a b : bool) : (a = true ↔ b = true) → a = b.
Proof. destruct a, b; intuition congruence. Qed.

End LetterCase.

(** X20: the product search ignores letter case in the query string: two
    non-empty query strings without pattern characters that differ only in
    the case of their letters give the same answer. *)
Theorem list_products_ignores_case (q q' : string) (limit : Z) (db : option Database) :
  q ≠ "" → q' ≠ "" →
  plain q = true → plain q' = true →
  lower q = lower q' →
  list_products (Some q) limit db = list_products (Some q') limit db.
Proof.
  intros Hq Hq' Hp Hp' E. unfold list_products.
  rewrite (str_truthy_nonempty q Hq), (str_truthy_nonempty q' Hq').
  unfold mbind, M_bind, bind, get_documents, find.
  destruct db as [d|]; [|done].
  rewrite (products_query_ok q Hp), (products_query_ok q' Hp').
  rewrite (filter_ext _ (matches (QOr [QRegex "name" q' "i"; QRegex "brand" q' "i";
                                       QRegex "sku" q' "i"]))); [done|].
  intros x. apply bool_eq_iff.
  rewrite (products_query_occurs q x Hp), (products_query_occurs q' x Hp').
  by apply q_occurs_lower.
Qed.

Lemma list_products_ignores_case_witness :
  list_products (Some "MARLBORO gold") 100 (Some Sample.d1)
  = list_products (Some "marlboro GOLD") 100 (Some Sample.d1).
Proof.
  apply list_products_ignores_case; [discriminate|discriminate| | |]; reflexivity.
Defined.

(** ** What the writes leave alone *)

Section Frames.

Lemma same_but_price_refl l : Forall2 same_but_price l l.
Proof. induction l; constructor; [split; [reflexivity|intros; reflexivity]|assumption]. Qed.

Lemma Some_pair_inv {A B} (a a' : A) (b b' : B) :
  Some (a, b) = Some (a', b') → a = a' ∧ b = b'.
Proof. by intros [= -> ->]. Qed.

Lemma update_first_price q v l l' m :
  update_first q (<["price" := v]> ∅) l = Some (l', m) → Forall2 same_but_price l l'.
Proof.
  revert l' m. induction l as [|x r IH]; intros l' m; cbn [update_first]; [done|].
  destruct (matches q x).
  - rewrite set_price_apply. intros [<- _]%Some_pair_inv.
    constructor; [|apply same_but_price_refl].
    split; [reflexivity|]. intros k Hk. cbn [doc_fields].
    by rewrite lookup_insert_ne.
  - destruct (update_first q _ r) as [[r' m']|]; [|done].
    intros [<- _]%Some_pair_inv.
    constructor; [split; [reflexivity|intros; reflexivity]|by eapply IH].
Qed.

(** The store after [create_price_update], whatever the truth test says. *)
Lemma create_price_update_state handle_bool u d :
  (create_price_update handle_bool u (Some d)).2
  = Some (insert_one "priceupdate" (PriceUpdate.dump u) d).2
  ∨ (create_price_update handle_bool u (Some d)).2 = Some (after_price_update u d).
Proof.
  unfold create_price_update, after_price_update, mbind, M_bind, bind.
  rewrite create_document_available. unfold db_truthy.
  cbn [model_dump PriceUpdate_model].
  destruct (handle_bool _) as [[|]|e]; [|by left|by left].
  right. cbn [is_not_None andb on_db]. unfold update_one.
  cbn [query_ok negb]. rewrite price_dict_ints_fit. cbn [negb].
  rewrite lookup_insert_ne, lookup_empty by done.
  cbn [is_not_None].
  destruct (update_first _ _ _) as [[docs m]|]; reflexivity.
Qed.

Lemma after_price_update_frame u d :
  Forall2 same_but_price (coll "tobaccoproduct" d)
    (coll "tobaccoproduct" (after_price_update u d))
  ∧ coll "priceupdate" (after_price_update u d)
    = coll "priceupdate" d
      ++ [Doc (Some (ObjectId_of_counter (next_oid d))) (PriceUpdate.dump u)]
  ∧ ∀ c, c ≠ "priceupdate" → c ≠ "tobaccoproduct" →
         coll c (after_price_update u d) = coll c d.
Proof.
  unfold after_price_update.
  rewrite (coll_insert_one_ne "priceupdate" "tobaccoproduct") by done.
  destruct (update_first _ _ _) as [[docs m]|] eqn:E.
  - split; [|split].
    + rewrite coll_set_coll_eq. by eapply update_first_price.
    + rewrite coll_set_coll_ne by done. apply coll_insert_one_eq.
    + intros c H1 H2. rewrite coll_set_coll_ne by done. by apply coll_insert_one_ne.
  - split; [|split].
    + rewrite (coll_insert_one_ne "priceupdate" "tobaccoproduct") by done.
      apply same_but_price_refl.
    + apply coll_insert_one_eq.
    + intros c H1 H2. by apply coll_insert_one_ne.
Qed.

Lemma after_batch_frame items : ∀ d c,
  c ≠ "tobaccoproduct" → coll c (after_batch items d) = coll c d.
Proof.
  induction items as [|p rest IH]; intros d c Hne; cbn [after_batch]; [done|].
  rewrite IH by done. by apply coll_insert_one_ne.
Qed.

Lemma after_batch_coll items : ∀ d,
  coll "tobaccoproduct" (after_batch items d)
  = coll "tobaccoproduct" d ++ batch_docs (next_oid d) items.
Proof.
  induction items as [|p rest IH]; intros d; cbn [after_batch batch_docs];
    [by rewrite app_nil_r|].
  rewrite IH, coll_insert_one_eq, <- app_assoc. reflexivity.
Qed.

Lemma not_elem_of_one (c x : string) : c ∉ [x] → c ≠ x.
Proof. intros H ->. apply H. constructor. Qed.

Lemma create_price_update_frame handle_bool u d :
  ∃ d',
    (create_price_update handle_bool u (Some d)).2 = Some d'
    ∧ Forall2 same_but_price (coll "tobaccoproduct" d) (coll "tobaccoproduct" d')
    ∧ coll "priceupdate" d'
      = coll "priceupdate" d
        ++ [Doc (Some (ObjectId_of_counter (next_oid d))) (PriceUpdate.dump u)]
    ∧ ∀ c, c ≠ "priceupdate" → c ≠ "tobaccoproduct" → coll c d' = coll c d.
Proof.
  destruct (create_price_update_state handle_bool u d) as [E|E]; rewrite E.
  - eexists. split; [reflexivity|]. split; [|split].
    + rewrite (coll_insert_one_ne "priceupdate" "tobaccoproduct") by done.
      apply same_but_price_refl.
    + apply coll_insert_one_eq.
    + intros c H1 H2. by apply coll_insert_one_ne.
  - eexists. split; [reflexivity|]. apply after_price_update_frame.
Qed.

End Frames.

(** X21: whatever the truth test of the handle says, a price update changes
    no product beyond its [price]: the products are the same records in the
    same order, each with its identifier and every field but [price] as
    before; the price-update collection grows by the new record, and no
    other collection is written. *)
Theorem create_price_update_touches_price_only
    (handle_bool : Database → outcome bool) (u : PriceUpdate.t) (d : Database) :
  ∃ d',
    (create_price_update handle_bool u (Some d)).2 = Some d'
    ∧ Forall2 same_but_price (coll "tobaccoproduct" d) (coll "tobaccoproduct" d')
    ∧ coll "priceupdate" d'
      = coll "priceupdate" d
        ++ [Doc (Some (ObjectId_of_counter (next_oid d))) (PriceUpdate.dump u)]
    ∧ ∀ c, c ≠ "priceupdate" → c ≠ "tobaccoproduct" → coll c d' = coll c d.
Proof. apply create_price_update_frame. Qed.

(** X22: when the truth test of the store handle raises, an accepted price
    update fails with that exception after its record is inserted: the
    record stays in the store and no product price is set. *)
Theorem create_price_update_guard_raises
    (handle_bool : Database → outcome bool) (e : exn)
    (b : PriceUpdate.body) (u : PriceUpdate.t) (d : Database) :
  (∀ h, handle_bool h = Raise e) →
  PriceUpdate.validate b = Some u →
  ∃ d',
    POST_price_updates handle_bool b (Some d) = (Raise e, Some d')
    ∧ coll "priceupdate" d'
      = coll "priceupdate" d
        ++ [Doc (Some (ObjectId_of_counter (next_oid d))) (PriceUpdate.dump u)]
    ∧ coll "tobaccoproduct" d' = coll "tobaccoproduct" d.
Proof.
  intros Hb Hv. eexists. unfold POST_price_updates, with_body. rewrite Hv.
  rewrite (create_price_update_truth_test_raises handle_bool u d e Hb).
  split; [reflexivity|]. split; [apply coll_insert_one_eq|by apply coll_insert_one_ne].
Qed.

Lemma create_price_update_guard_raises_witness :
  ∃ u d',
    PriceUpdate.validate Sample.reprice = Some u
    ∧ POST_price_updates
        (λ _, Raise (PyError "NotImplementedError"
                       "Database objects do not implement truth value testing or bool()"))
        Sample.reprice (Some Sample.d1)
      = (Raise (PyError "NotImplementedError"
                  "Database objects do not implement truth value testing or bool()"),
         Some d')
    ∧ coll "tobaccoproduct" d' = coll "tobaccoproduct" Sample.d1.
Proof.
  eexists _.
  destruct (create_price_update_guard_raises
              (λ _, Raise (PyError "NotImplementedError"
                             "Database objects do not implement truth value testing or bool()"))
              _ Sample.reprice _ Sample.d1 (λ _, eq_refl) eq_refl)
    as (d' & E & _ & Hp).
  exists d'. split; [reflexivity|]. split; [exact E|exact Hp].
Defined.

(** X23: with the store there, creating a product, a batch or a label and
    deleting a product keep the store handle and write to their own
    collection only; a price update writes to the price-update and product
    collections only. *)
Theorem handlers_write_their_collections
    (p : TobaccoProduct.t) (items : list TobaccoProduct.t) (product_id : string)
    (l : Label.t) (handle_bool : Database → outcome bool) (u : PriceUpdate.t) :
  writes_only ["tobaccoproduct"] (create_product p)
  ∧ writes_only ["tobaccoproduct"] (create_products_bulk (BulkProducts.Make items))
  ∧ writes_only ["tobaccoproduct"] (delete_product product_id)
  ∧ writes_only ["label"] (create_label l)
  ∧ writes_only ["priceupdate"; "tobaccoproduct"] (create_price_update handle_bool u).
Proof.
  repeat split; intros d.
  - eexists. split.
    + unfold create_product, mbind, M_bind, bind. by rewrite create_document_available.
    + intros c Hc%not_elem_of_one. by apply coll_insert_one_ne.
  - eexists. split.
    + unfold create_products_bulk, mbind, M_bind, bind. cbn [BulkProducts.items].
      by rewrite insert_each_after_batch.
    + intros c Hc%not_elem_of_one. by apply after_batch_frame.
  - rewrite delete_product_cases.
    destruct (ObjectId_of_str product_id) as [oid|e]; [|by exists d].
    destruct (delete_first _ _) as [docs|]; [|by exists d].
    eexists. split; [reflexivity|].
    intros c Hc%not_elem_of_one. by apply coll_set_coll_ne.
  - eexists. split.
    + unfold create_label, mbind, M_bind, bind. by rewrite create_document_available.
    + intros c Hc%not_elem_of_one. by apply coll_insert_one_ne.
  - destruct (create_price_update_frame handle_bool u d)
      as (d' & E & H). exists d'. split; [exact E|].
    intros c Hc. apply H; intros ->; apply Hc; repeat constructor.
Qed.

(** ** The keys of a product record *)

Section ProductKeys.

Lemma dump_keys p : dom (TobaccoProduct.dump p) = product_keys.
Proof.
  unfold TobaccoProduct.dump, product_keys. rewrite !dom_insert_L, dom_empty_L.
  set_solver.
Qed.

Lemma updates_dict_keys u :
  dom (drop_None (ProductUpdate.dump_exclude_unset u)) ⊆ product_keys.
Proof.
  intros k [v Hv]%elem_of_dom. rewrite updates_dict_lookup in Hv.
  unfold given_value in Hv. unfold product_keys.
  repeat case_decide; subst; try discriminate; set_solver.
Qed.

Lemma apply_set_keys (set : dict) x :
  dom set ⊆ product_keys →
  dom (doc_fields x) = product_keys →
  dom (doc_fields (apply_set set x)) = product_keys.
Proof.
  intros Hs Hx. cbn [apply_set doc_fields]. rewrite dom_union_L, Hx. set_solver.
Qed.

Lemma update_first_Forall (P : document → Prop) q set l l' m :
  (∀ x, P x → P (apply_set set x)) →
  Forall P l →
  update_first q set l = Some (l', m) → Forall P l'.
Proof.
  intros HP Hl. revert l' m.
  induction Hl as [|x r Hx Hr IH]; intros l' m; cbn [update_first]; [done|].
  destruct (matches q x).
  - intros [<- _]%Some_pair_inv. constructor; [by apply HP|done].
  - destruct (update_first q set r) as [[r' m']|]; [|done].
    intros [<- _]%Some_pair_inv. constructor; [done|by eapply IH].
Qed.

Lemma delete_first_Forall (P : document → Prop) q l l' :
  Forall P l → delete_first q l = Some l' → Forall P l'.
Proof.
  intros Hl. revert l'.
  induction Hl as [|x r Hx Hr IH]; intros l'; cbn [delete_first]; [done|].
  destruct (matches q x).
  - by intros [= <-].
  - destruct (delete_first q r) as [r'|]; [|done].
    cbn. intros [= <-]. constructor; [done|by apply IH].
Qed.

Lemma batch_docs_keys n items :
  Forall (λ x, dom (doc_fields x) = product_keys) (batch_docs n items).
Proof.
  revert n. induction items as [|p rest IH]; intros n; cbn [batch_docs]; constructor.
  - apply dump_keys.
  - apply IH.
Qed.

Lemma price_keys (v : value) : dom (<["price" := v]> (∅ : dict)) ⊆ product_keys.
Proof. rewrite dom_insert_L, dom_empty_L. unfold product_keys. set_solver. Qed.

Lemma Some_state_inv (a b : Database) : Some a = Some b → a = b.
Proof. by intros [= ->]. Qed.

End ProductKeys.

(** X24: the handlers keep the shape of the product records: when every
    stored product has exactly the ten keys of the product model, it is still
    so after creating a product or a batch, after a partial update or a
    deletion of a product, and after a price update. *)
Theorem handlers_keep_product_keys
    (p : TobaccoProduct.t) (items : list TobaccoProduct.t) (product_id : string)
    (updates : ProductUpdate.t) (handle_bool : Database → outcome bool)
    (u : PriceUpdate.t) :
  keeps products_keyed (create_product p)
  ∧ keeps products_keyed (create_products_bulk (BulkProducts.Make items))
  ∧ keeps products_keyed (update_product product_id updates)
  ∧ keeps products_keyed (delete_product product_id)
  ∧ keeps products_keyed (create_price_update handle_bool u).
Proof.
  unfold keeps, products_keyed. repeat split; intros d d' Hd.
  - unfold create_product, mbind, M_bind, bind. rewrite create_document_available.
    cbn [snd mret M_ret ret]. intros <-%Some_state_inv.
    rewrite coll_insert_one_eq. apply Forall_app. split; [done|].
    constructor; [apply dump_keys|done].
  - unfold create_products_bulk, mbind, M_bind, bind. cbn [BulkProducts.items].
    rewrite insert_each_after_batch. cbn [snd mret M_ret ret]. intros <-%Some_state_inv.
    rewrite after_batch_coll. apply Forall_app. split; [done|apply batch_docs_keys].
  - rewrite update_product_cases. cbn zeta.
    destruct (bool_decide _); [by intros <-%Some_state_inv|].
    destruct (ObjectId_of_str product_id) as [oid|e]; [|by intros <-%Some_state_inv].
    destruct (dict_ints_fit _); [|by intros <-%Some_state_inv].
    destruct (update_first _ _ _) as [[docs m]|] eqn:E; [|by intros <-%Some_state_inv].
    cbn [snd]. intros <-%Some_state_inv. rewrite coll_set_coll_eq.
    eapply update_first_Forall; [|exact Hd|exact E].
    intros x Hx. apply apply_set_keys; [apply updates_dict_keys|done].
  - rewrite delete_product_cases.
    destruct (ObjectId_of_str product_id) as [oid|e]; [|by intros <-%Some_state_inv].
    destruct (delete_first _ _) as [docs|] eqn:E; [|by intros <-%Some_state_inv].
    cbn [snd]. intros <-%Some_state_inv. rewrite coll_set_coll_eq.
    by eapply delete_first_Forall.
  - destruct (create_price_update_state handle_bool u d) as [E|E]; rewrite E;
      intros <-%Some_state_inv.
    + by rewrite (coll_insert_one_ne "priceupdate" "tobaccoproduct").
    + unfold after_price_update.
      destruct (update_first _ _ _) as [[docs m]|] eqn:Eu.
      * rewrite coll_set_coll_eq.
        rewrite (coll_insert_one_ne "priceupdate" "tobaccoproduct") in Eu by done.
        eapply update_first_Forall; [|exact Hd|exact Eu].
        intros x Hx. apply apply_set_keys; [apply price_keys|done].
      * by rewrite (coll_insert_one_ne "priceupdate" "tobaccoproduct").
Qed.

Lemma handlers_keep_product_keys_witness :
  products_keyed Sample.d1
  ∧ ∀ d', (update_product "000000000000000000000001" Sample.new_price (Some Sample.d1)).2
          = Some d' → products_keyed d'.
Proof.
  assert (H : products_keyed Sample.d1).
  { unfold products_keyed. change (coll "tobaccoproduct" Sample.d1) with [Sample.marlboro_doc].
    constructor; [|constructor].
    unfold Sample.marlboro_doc. cbn [doc_fields]. unfold product_keys.
    rewrite !dom_insert_L, dom_empty_L. set_solver. }
  split; [exact H|]. intros d'.
  exact (proj1 (proj2 (proj2 (handlers_keep_product_keys
           (TobaccoProduct.Make "" "" None None None 0%float None None None true) []
           "000000000000000000000001" Sample.new_price (λ _, Return true)
           (PriceUpdate.Make "" 0%float 0%float None "" None))))
           Sample.d1 d' H).
Defined.

(** ** The store profile *)

(** X25: the store profile model accepts exactly the bodies that give a
    name; a body without [country] reads as country [IT], a null [country]
    as none; the dump has the four keys of the model. *)
Theorem store_profile_validate (b : StoreProfile.body) :
  (is_Some (StoreProfile.validate b) ↔ acceptable_store b)
  ∧ ∀ s, StoreProfile.validate b = Some s →
         StoreProfile.b_name b = Given (StoreProfile.name s)
         ∧ (StoreProfile.b_country b = Unset → StoreProfile.country s = Some "IT")
         ∧ (StoreProfile.b_country b = Null → StoreProfile.country s = None)
         ∧ (∀ c, StoreProfile.b_country b = Given c → StoreProfile.country s = Some c)
         ∧ dom (StoreProfile.dump s) = {[ "name"; "address"; "city"; "country" ]}.
Proof.
  unfold acceptable_store, StoreProfile.validate. destruct b as [n a c co]. simpl.
  destruct n as [| |n]; simpl.
  - split; [split; [by intros [? [=]]|by intros [? [=]]]|done].
  - split; [split; [by intros [? [=]]|by intros [? [=]]]|done].
  - split; [split; eauto|]. intros s [= <-]. cbn.
    split; [done|]. split; [by intros ->|]. split; [by intros ->|].
    split; [by intros ? ->|].
    unfold StoreProfile.dump. rewrite !dom_insert_L, dom_empty_L. set_solver.
Qed.
